(** * StealthLynk client: connection supervisor, readiness wait and failover

    A shallow embedding of the connection logic of the Electron main process
    (the second document of src/afterSignHook.js: [waitForProxy],
    [connectVPN], [disconnectVPN], [handleConnectionFailure], the close
    handler of the tunnel process) and of the guards of the renderer process
    (src/unnamed/part_000: [connect], [disconnect], the sort of the server
    list), followed by the properties of the design document that concern
    them.  Further modules embed the code around these functions: the
    choice of the server for an automatic reconnect and [escapeHtml] in the
    renderer, the uptime clock of both processes, [setActiveServer] and
    [configureProxy] in the main process; their properties close the file.

    Conventions of the embedding:
    - the module-level [let] variables of the main process are the fields
      of one record, [Main.World], threaded through every function;
    - everything the code does to the outside (spawn, kill, proxy commands,
      monitor start/stop, tray, IPC sends) is appended to [Main.trace];
    - everything the outside answers (socket attempts, detected address,
      presence of the binary, latency probes) is read from an oracle,
      [Main.Host], over which the theorems quantify;
    - [throw], [try]/[catch] and [finally] are those of a small state and
      exception monad, [Main.Eff];
    - an [async] function that is not interleaved with another one is run to
      completion; the one place where interleaving matters (a second connect
      while the first is suspended at its first [await]) is modelled by the
      synchronous prefix [Main.connectVPN_until_await];
    - serverManager.js and networkMonitor.js, which the main process
      requires, are modelled from the design document. *)

From Stdlib Require Import ZArith String List Bool Lia DecimalString.
From Stdlib Require Import Sorting.Sorted Sorting.Permutation.
Import ListNotations.
Open Scope string_scope.
Open Scope Z_scope.

(** ** Data model *)

Definition ServerId := string.

(** A server profile; only the fields read by the modelled functions. *)
Record Server := mkServer {
  id : ServerId;
  name : string;
  address : string;
  port : Z
}.

(** The content of servers.json: the list and the active identifier. *)
Record ServersData := mkServersData {
  servers : list Server;
  activeServer : option ServerId
}.

(** JavaScript truthiness of a nullable string: [null] and the empty string
    are falsy. *)
Definition truthy (s : option string) : option string :=
  match s with
  | Some v => if String.eqb v "" then None else Some v
  | None => None
  end.

(** [arr.includes(x)] on an array of identifiers. *)
Definition includes (arr : list ServerId) (x : ServerId) : bool :=
  existsb (String.eqb x) arr.

(** [arr.find(s => s.id === x)] *)
Definition find_by_id (arr : list Server) (x : ServerId) : option Server :=
  find (fun s => String.eqb (id s) x) arr.

(** Template literal interpolation of an integer. *)
Definition show_Z (z : Z) : string := NilZero.string_of_int (Z.to_int z).

(** ** Readiness wait ([waitForProxy] of the main process) *)

Module ProxyWait.

(** What one [net.createConnection] does: the connect callback fires after
    [d] ms, or the 'error' event fires after [d] ms (a connection that is
    neither accepted nor refused is ended by the operating system with an
    error, so one of the two always happens). *)
Inductive SocketOutcome :=
| Accepted (d : nat)
| Refused (d : nat).

(** The state of the promise.  [Pending] is what a run cut short would
    leave; [waitForProxy_settles] shows that it is never returned. *)
Inductive WaitResult :=
| Resolved
| Rejected (msg : string)
| Pending.

(** A finished wait: how the promise settled, the clock at that moment and
    the number of sockets that were opened. *)
Record WaitRun := mkWaitRun {
  settled : WaitResult;
  settledAt : Z;
  socketsOpened : nat
}.

Definition retryDelay : Z := 200.
Definition defaultTimeout : Z := 10000.

Definition timeoutMessage (timeout : Z) : string :=
  "Proxy connection timed out after " ++ show_Z timeout ++ "ms".

(** [tryConnect]: [now] is [Date.now()] on entry, [n] the number of sockets
    opened so far; [sock n] is the behaviour of the next socket. *)
Fixpoint tryConnect (fuel : nat) (sock : nat -> SocketOutcome)
    (startTime timeout now : Z) (n : nat) : WaitRun :=
  match fuel with
  | O => mkWaitRun Pending now n
  | S fuel' =>
      if now - startTime >? timeout then
        mkWaitRun (Rejected (timeoutMessage timeout)) now n
      else
        match sock n with
        | Accepted d => mkWaitRun Resolved (now + Z.of_nat d) (S n)
        | Refused d =>
            tryConnect fuel' sock startTime timeout
              (now + Z.of_nat d + retryDelay) (S n)
        end
  end.

(** Every retry is at least [retryDelay] later than the previous one, so no
    run makes more than this many entries into [tryConnect]. *)
Definition maxEntries (timeout : Z) : nat :=
  Z.to_nat (timeout / retryDelay) + 2.

(** [waitForProxy(port, host, timeout = 10000)]; the network is a function
    of the port and the host. *)
Definition waitForProxy
    (network : Z -> string -> nat -> SocketOutcome)
    (startTime : Z) (port : Z) (host : string) (timeout : option Z) : WaitRun :=
  let timeout := match timeout with Some t => t | None => defaultTimeout end in
  tryConnect (maxEntries timeout) (network port host) startTime timeout startTime 0.

(** For the statements: how long a socket takes to answer, and the clock at
    which the [n]-th socket is opened when all earlier ones were refused
    (each retry is scheduled [retryDelay] ms after the 'error' event). *)
Definition duration (o : SocketOutcome) : nat :=
  match o with
  | Accepted d => d
  | Refused d => d
  end.

Fixpoint openedAt (sock : nat -> SocketOutcome) (startTime : Z) (n : nat) : Z :=
  match n with
  | O => startTime
  | S k => openedAt sock startTime k + Z.of_nat (duration (sock k)) + retryDelay
  end.

End ProxyWait.

(** ** Latency ranking (networkMonitor.js, required by main.js) *)

Module NetworkMonitor.

(** Modelled from the spec: the HealthSample of the data model, a round-trip
    latency measurement, or its absence, for a candidate server.
    networkMonitor.js is missing. *)
Definition HealthSample := (Server * option Z)%type.

(** Modelled from the spec: step 4 of the failover algorithm, "probe all
    candidates concurrently for latency (absence = unreachable)".  The
    probes share no state, so the outcome of probing them together is the
    map of an oracle over the candidates. *)
Definition probeAll (latency : Server -> option Z) (candidates : list Server)
  : list HealthSample :=
  map (fun s => (s, latency s)) candidates.

(** Modelled from the spec: "unreachable candidates excluded entirely". *)
Fixpoint reachable (samples : list HealthSample) : list (Server * Z) :=
  match samples with
  | [] => []
  | (s, Some ping) :: rest => (s, ping) :: reachable rest
  | (_, None) :: rest => reachable rest
  end.

(** Modelled from the spec: "rank ascending by latency".  Ties keep the
    order of the candidate list. *)
Fixpoint insertByPing (x : Server * Z) (sorted : list (Server * Z))
  : list (Server * Z) :=
  match sorted with
  | [] => [x]
  | y :: rest =>
      if snd x <=? snd y then x :: y :: rest else y :: insertByPing x rest
  end.

Definition sortByPing (l : list (Server * Z)) : list (Server * Z) :=
  fold_right insertByPing [] l.

Definition rankSamples (samples : list HealthSample) : list (Server * Z) :=
  sortByPing (reachable samples).

(** Modelled from the spec: [networkMonitor.getRankedServers], the ranked
    candidate list of step 4 (the function itself is in the missing
    networkMonitor.js). *)
Definition getRankedServers (latency : Server -> option Z)
    (candidates : list Server) : list Server :=
  map fst (rankSamples (probeAll latency candidates)).

(** Ascending order of latency, for the statements. *)
Definition byPing (a b : Server * Z) : Prop := snd a <= snd b.

End NetworkMonitor.

(** ** The main process (src/afterSignHook.js, from its line 60 on) *)

Module Main.
Import ProxyWait.

(** A handle on a spawned tunnel process. *)
Definition Pid := nat.
Bind Scope nat_scope with Pid.

(** What the main process does to its collaborators, in order.
    [EvConnected b] records the assignment [isConnected = b]. *)
Inductive Event :=
| EvWriteConfig (server : ServerId)
| EvSpawn (p : Pid)
| EvKill (p : Pid)
| EvConfigureProxy (enable : bool)
| EvStopMonitoring
| EvStartMonitoring (ip : string)
| EvConnected (b : bool)
| EvUpdateTray (connected : bool)
| EvSend (channel : string).

(** The object returned to the caller: [{ success, message }]. *)
Record Result := mkResult {
  success : bool;
  message : string
}.

(** The module-level variables of the main process, followed by the state
    of the collaborators: [store] is serverManager's copy of the server list
    (the main process reads its own [serversData] and reloads it only where
    the source says so), [monitor] the address watched by networkMonitor,
    [systemProxy] the last setting asked of the host, [running] the live
    tunnel processes, [spawned] the number of processes ever spawned,
    [attempts] the number of connection attempts so far (the index into the
    oracle) and [trace] the effects so far, oldest first. *)
Record World := mkWorld {
  mainWindow : bool;
  tray : bool;
  xrayProcess : option Pid;
  isConnected : bool;
  connectionStartTime : option Z;
  serversData : ServersData;
  autoReconnectEnabled : bool;
  isAutoFailoverInProgress : bool;
  lastConnectedIP : option string;
  sessionFailedServers : list ServerId;
  store : ServersData;
  monitor : option string;
  systemProxy : bool;
  running : list Pid;
  spawned : nat;
  attempts : nat;
  trace : list Event
}.

Definition set_xrayProcess (v : option Pid) (w : World) : World :=
  {| mainWindow := mainWindow w; tray := tray w; xrayProcess := v;
     isConnected := isConnected w; connectionStartTime := connectionStartTime
     w; serversData := serversData w; autoReconnectEnabled :=
     autoReconnectEnabled w; isAutoFailoverInProgress :=
     isAutoFailoverInProgress w; lastConnectedIP := lastConnectedIP w;
     sessionFailedServers := sessionFailedServers w; store := store w;
     monitor := monitor w; systemProxy := systemProxy w; running := running
     w; spawned := spawned w; attempts := attempts w; trace := trace w |}.

Definition set_isConnected (v : bool) (w : World) : World :=
  {| mainWindow := mainWindow w; tray := tray w; xrayProcess := xrayProcess
     w; isConnected := v; connectionStartTime := connectionStartTime w;
     serversData := serversData w; autoReconnectEnabled :=
     autoReconnectEnabled w; isAutoFailoverInProgress :=
     isAutoFailoverInProgress w; lastConnectedIP := lastConnectedIP w;
     sessionFailedServers := sessionFailedServers w; store := store w;
     monitor := monitor w; systemProxy := systemProxy w; running := running
     w; spawned := spawned w; attempts := attempts w; trace := trace w |}.

Definition set_connectionStartTime (v : option Z) (w : World) : World :=
  {| mainWindow := mainWindow w; tray := tray w; xrayProcess := xrayProcess
     w; isConnected := isConnected w; connectionStartTime := v; serversData
     := serversData w; autoReconnectEnabled := autoReconnectEnabled w;
     isAutoFailoverInProgress := isAutoFailoverInProgress w; lastConnectedIP
     := lastConnectedIP w; sessionFailedServers := sessionFailedServers w;
     store := store w; monitor := monitor w; systemProxy := systemProxy w;
     running := running w; spawned := spawned w; attempts := attempts w;
     trace := trace w |}.

Definition set_isAutoFailoverInProgress (v : bool) (w : World) : World :=
  {| mainWindow := mainWindow w; tray := tray w; xrayProcess := xrayProcess
     w; isConnected := isConnected w; connectionStartTime :=
     connectionStartTime w; serversData := serversData w;
     autoReconnectEnabled := autoReconnectEnabled w; isAutoFailoverInProgress
     := v; lastConnectedIP := lastConnectedIP w; sessionFailedServers :=
     sessionFailedServers w; store := store w; monitor := monitor w;
     systemProxy := systemProxy w; running := running w; spawned := spawned
     w; attempts := attempts w; trace := trace w |}.

Definition set_lastConnectedIP (v : option string) (w : World) : World :=
  {| mainWindow := mainWindow w; tray := tray w; xrayProcess := xrayProcess
     w; isConnected := isConnected w; connectionStartTime :=
     connectionStartTime w; serversData := serversData w;
     autoReconnectEnabled := autoReconnectEnabled w; isAutoFailoverInProgress
     := isAutoFailoverInProgress w; lastConnectedIP := v;
     sessionFailedServers := sessionFailedServers w; store := store w;
     monitor := monitor w; systemProxy := systemProxy w; running := running
     w; spawned := spawned w; attempts := attempts w; trace := trace w |}.

Definition set_sessionFailedServers (v : list ServerId) (w : World) : World :=
  {| mainWindow := mainWindow w; tray := tray w; xrayProcess := xrayProcess
     w; isConnected := isConnected w; connectionStartTime :=
     connectionStartTime w; serversData := serversData w;
     autoReconnectEnabled := autoReconnectEnabled w; isAutoFailoverInProgress
     := isAutoFailoverInProgress w; lastConnectedIP := lastConnectedIP w;
     sessionFailedServers := v; store := store w; monitor := monitor w;
     systemProxy := systemProxy w; running := running w; spawned := spawned
     w; attempts := attempts w; trace := trace w |}.

Definition set_store (v : ServersData) (w : World) : World :=
  {| mainWindow := mainWindow w; tray := tray w; xrayProcess := xrayProcess
     w; isConnected := isConnected w; connectionStartTime :=
     connectionStartTime w; serversData := serversData w;
     autoReconnectEnabled := autoReconnectEnabled w; isAutoFailoverInProgress
     := isAutoFailoverInProgress w; lastConnectedIP := lastConnectedIP w;
     sessionFailedServers := sessionFailedServers w; store := v; monitor :=
     monitor w; systemProxy := systemProxy w; running := running w; spawned
     := spawned w; attempts := attempts w; trace := trace w |}.

Definition set_monitor (v : option string) (w : World) : World :=
  {| mainWindow := mainWindow w; tray := tray w; xrayProcess := xrayProcess
     w; isConnected := isConnected w; connectionStartTime :=
     connectionStartTime w; serversData := serversData w;
     autoReconnectEnabled := autoReconnectEnabled w; isAutoFailoverInProgress
     := isAutoFailoverInProgress w; lastConnectedIP := lastConnectedIP w;
     sessionFailedServers := sessionFailedServers w; store := store w;
     monitor := v; systemProxy := systemProxy w; running := running w;
     spawned := spawned w; attempts := attempts w; trace := trace w |}.

Definition set_systemProxy (v : bool) (w : World) : World :=
  {| mainWindow := mainWindow w; tray := tray w; xrayProcess := xrayProcess
     w; isConnected := isConnected w; connectionStartTime :=
     connectionStartTime w; serversData := serversData w;
     autoReconnectEnabled := autoReconnectEnabled w; isAutoFailoverInProgress
     := isAutoFailoverInProgress w; lastConnectedIP := lastConnectedIP w;
     sessionFailedServers := sessionFailedServers w; store := store w;
     monitor := monitor w; systemProxy := v; running := running w; spawned :=
     spawned w; attempts := attempts w; trace := trace w |}.

Definition set_running (v : list Pid) (w : World) : World :=
  {| mainWindow := mainWindow w; tray := tray w; xrayProcess := xrayProcess
     w; isConnected := isConnected w; connectionStartTime :=
     connectionStartTime w; serversData := serversData w;
     autoReconnectEnabled := autoReconnectEnabled w; isAutoFailoverInProgress
     := isAutoFailoverInProgress w; lastConnectedIP := lastConnectedIP w;
     sessionFailedServers := sessionFailedServers w; store := store w;
     monitor := monitor w; systemProxy := systemProxy w; running := v;
     spawned := spawned w; attempts := attempts w; trace := trace w |}.

Definition set_spawned (v : nat) (w : World) : World :=
  {| mainWindow := mainWindow w; tray := tray w; xrayProcess := xrayProcess
     w; isConnected := isConnected w; connectionStartTime :=
     connectionStartTime w; serversData := serversData w;
     autoReconnectEnabled := autoReconnectEnabled w; isAutoFailoverInProgress
     := isAutoFailoverInProgress w; lastConnectedIP := lastConnectedIP w;
     sessionFailedServers := sessionFailedServers w; store := store w;
     monitor := monitor w; systemProxy := systemProxy w; running := running
     w; spawned := v; attempts := attempts w; trace := trace w |}.

Definition set_attempts (v : nat) (w : World) : World :=
  {| mainWindow := mainWindow w; tray := tray w; xrayProcess := xrayProcess
     w; isConnected := isConnected w; connectionStartTime :=
     connectionStartTime w; serversData := serversData w;
     autoReconnectEnabled := autoReconnectEnabled w; isAutoFailoverInProgress
     := isAutoFailoverInProgress w; lastConnectedIP := lastConnectedIP w;
     sessionFailedServers := sessionFailedServers w; store := store w;
     monitor := monitor w; systemProxy := systemProxy w; running := running
     w; spawned := spawned w; attempts := v; trace := trace w |}.

Definition set_trace (v : list Event) (w : World) : World :=
  {| mainWindow := mainWindow w; tray := tray w; xrayProcess := xrayProcess
     w; isConnected := isConnected w; connectionStartTime :=
     connectionStartTime w; serversData := serversData w;
     autoReconnectEnabled := autoReconnectEnabled w; isAutoFailoverInProgress
     := isAutoFailoverInProgress w; lastConnectedIP := lastConnectedIP w;
     sessionFailedServers := sessionFailedServers w; store := store w;
     monitor := monitor w; systemProxy := systemProxy w; running := running
     w; spawned := spawned w; attempts := attempts w; trace := v |}.

(** *** Effects: state, exceptions, try/catch/finally *)

Inductive Completion (A : Type) :=
| Normal (a : A)
| Thrown (e : string).
Arguments Normal {A} a.
Arguments Thrown {A} e.

Definition Eff (A : Type) : Type := World -> Completion A * World.

Definition ret {A} (a : A) : Eff A := fun w => (Normal a, w).

Definition throw {A} (e : string) : Eff A := fun w => (Thrown e, w).

Definition bind {A B} (m : Eff A) (k : A -> Eff B) : Eff B :=
  fun w =>
    match m w with
    | (Normal a, w') => k a w'
    | (Thrown e, w') => (Thrown e, w')
    end.

Notation "x <- m ;; k" := (bind m (fun x => k))
  (at level 61, m at next level, right associativity).
Notation "m ;; k" := (bind m (fun _ => k))
  (at level 61, right associativity).

Definition try_catch {A} (body : Eff A) (handler : string -> Eff A) : Eff A :=
  fun w =>
    match body w with
    | (Normal a, w') => (Normal a, w')
    | (Thrown e, w') => handler e w'
    end.

Definition try_finally {A} (body : Eff A) (finalizer : Eff unit) : Eff A :=
  fun w =>
    let (c, w') := body w in
    match finalizer w' with
    | (Normal _, w'') => (c, w'')
    | (Thrown e, w'') => (Thrown e, w'')
    end.

Definition get : Eff World := fun w => (Normal w, w).

Definition modify (f : World -> World) : Eff unit := fun w => (Normal tt, f w).

Definition emit (e : Event) : Eff unit :=
  modify (fun w => set_trace (trace w ++ [e]) w).

(** *** The outside world *)

(** What the host answers during one connection attempt. *)
Record ConnectEnv := mkConnectEnv {
  configFault : option string;   (* generateXrayConfig / writeFileSync throws *)
  xrayBinary : bool;             (* findXrayBinary() found a path *)
  network : Z -> string -> nat -> SocketOutcome;
  waitStart : Z;                 (* Date.now() when waitForProxy is entered *)
  detectedIp : option string;    (* testConnection() *)
  connectedAt : Z;               (* Date.now() after verification *)
  storeFault : option string     (* serverManager.loadServers() throws *)
}.

(** What the host answers over a whole run. *)
Record Host := mkHost {
  attempt : nat -> ConnectEnv;       (* the n-th connection attempt *)
  latency : Server -> option Z;      (* latency probe of a candidate *)
  rankingFault : option string       (* getRankedServers rejects *)
}.

(** Modelled from the spec: [networkMonitor.stopMonitoring]
    (networkMonitor.js is missing); afterwards no monitor is active. *)
Definition stopMonitoring : Eff unit :=
  modify (set_monitor None);; emit EvStopMonitoring.

(** Modelled from the spec: [networkMonitor.startMonitoring(ip, callback)]
    (networkMonitor.js is missing).  At most one monitor is active; starting
    one replaces any prior one.  The callback is always
    [handleConnectionFailure]. *)
Definition startMonitoring (ip : string) : Eff unit :=
  modify (set_monitor (Some ip));; emit (EvStartMonitoring ip).

(** Modelled from the spec: [serverManager.getActiveServerId], the
    [GetActiveId() -> id | None] of the ServerStore contract
    (serverManager.js is missing). *)
Definition serverManager_getActiveServerId : Eff (option ServerId) :=
  w <- get;; ret (activeServer (store w)).

(** Modelled from the spec: [serverManager.getServers], the
    [List() -> ServerSet] of the ServerStore contract. *)
Definition serverManager_getServers : Eff ServersData :=
  w <- get;; ret (store w).

(** Modelled from the spec: [serverManager.setActiveServer], the
    [SetActive(id) -> ok | NotFound] of the ServerStore contract. *)
Definition serverManager_setActiveServer (sid : ServerId) : Eff bool :=
  w <- get;;
  match find_by_id (servers (store w)) sid with
  | Some _ =>
      modify (set_store (mkServersData (servers (store w)) (Some sid)));;
      ret true
  | None => ret false
  end.

(** [spawn(xrayBinary, ['-c', configPath])] *)
Definition spawn : Eff Pid :=
  w <- get;;
  let p := spawned w in
  modify (set_spawned (S p));;
  modify (fun w => set_running (p :: running w) w);;
  emit (EvSpawn p);;
  ret p.

(** [process.kill()] *)
Definition kill (p : Pid) : Eff unit :=
  modify (fun w => set_running (remove Nat.eq_dec p (running w)) w);;
  emit (EvKill p).

(** [isConnected = b] *)
Definition assign_isConnected (b : bool) : Eff unit :=
  modify (set_isConnected b);; emit (EvConnected b).

(** [sessionFailedServers.push(sid)] *)
Definition sessionFailedServers_push (sid : ServerId) : Eff unit :=
  modify (fun w => set_sessionFailedServers (sessionFailedServers w ++ [sid]) w).

(** [mainWindow.webContents.send(channel, ...)] *)
Definition send (channel : string) : Eff unit := emit (EvSend channel).

(** [getActiveServer()] *)
Definition getActiveServer (w : World) : option Server :=
  match truthy (activeServer (serversData w)) with
  | None => None
  | Some a => find_by_id (servers (serversData w)) a
  end.

(** [updateTray()]: returns at once without a tray; catches its own errors. *)
Definition updateTray : Eff unit :=
  w <- get;;
  if tray w then emit (EvUpdateTray (isConnected w)) else ret tt.

(** [configureProxy(enable)], as its callers see it: every command runs
    inside a try/catch and the whole body inside another one, so the call
    never rejects; neither [connectVPN] nor [disconnectVPN] looks at the
    result.  The call is recorded in the trace and [systemProxy] keeps the
    setting last asked for.  That is not the state of the host: the call
    can issue no proxy command at all, or have every command fail, and
    still return; what it does on the host is [SystemProxy.configureProxy]
    below. *)
Definition configureProxy (enable : bool) : Eff unit :=
  modify (set_systemProxy enable);; emit (EvConfigureProxy enable).

(** [updateServerCountryInfo(serverId, ip)]: the store is loaded outside the
    function's try/catch; the geo lookup and its update of the flag fields
    (not part of [Server] here) happen inside it. *)
Definition updateServerCountryInfo (env : ConnectEnv) (serverId : ServerId)
    (ip : string) : Eff ServersData :=
  match storeFault env with
  | Some e => throw e
  | None => w <- get;; ret (store w)
  end.

(** [disconnectVPN(silent = false)] *)
Definition disconnectVPN (silent : bool) : Eff Result :=
  try_catch
    (w <- get;;
     if negb (isConnected w) then ret (mkResult true "Not connected")
     else
       match xrayProcess w with
       | Some p => kill p;; modify (set_xrayProcess None)
       | None => ret tt
       end;;
       configureProxy false;;
       assign_isConnected false;;
       modify (set_connectionStartTime None);;
       stopMonitoring;;
       updateTray;;
       w <- get;;
       (if mainWindow w
        then send "vpn:status-change";; send "vpn:disconnected"
        else ret tt);;
       ret (mkResult true "Disconnected successfully"))
    (fun e => ret (mkResult false ("Failed to disconnect: " ++ e))).

(** The 'close' handler that [connectVPN] registers on the process. *)
Definition xrayProcess_onClose : Eff unit :=
  w <- get;;
  if isConnected w then disconnectVPN true;; ret tt else ret tt.

(** The tunnel process [p] exits: it is gone, then its handler runs. *)
Definition processExited (p : Pid) : Eff unit :=
  modify (fun w => set_running (remove Nat.eq_dec p (running w)) w);;
  xrayProcess_onClose.

Section WithHost.
Variable host : Host.

Definition nextAttempt : Eff ConnectEnv :=
  w <- get;;
  modify (set_attempts (S (attempts w)));;
  ret (attempt host (attempts w)).

(** [connectVPN], inside [try], up to the first [await]: the configuration
    is written, the binary located and the process spawned. *)
Definition connectVPN_launch (env : ConnectEnv) (activeServerConfig : Server)
  : Eff unit :=
  match configFault env with
  | Some e => throw e
  | None => emit (EvWriteConfig (id activeServerConfig))
  end;;
  (if xrayBinary env then ret tt else throw "Xray binary not found.");;
  p <- spawn;;
  modify (set_xrayProcess (Some p)).

(** [connectVPN], inside [try], from [await waitForProxy] on.  The
    [Pending] case cannot arise, see [waitForProxy_settles]. *)
Definition connectVPN_establish (env : ConnectEnv) (activeServerConfig : Server)
    (isEmergencyReconnect : bool) : Eff Result :=
  match settled (waitForProxy (network env) (waitStart env) 10808 "127.0.0.1" None) with
  | Resolved => ret tt
  | Rejected msg => throw ("Failed to establish proxy connection: " ++ msg)
  | Pending => throw "Failed to establish proxy connection: "
  end;;
  configureProxy true;;
  match truthy (detectedIp env) with
  | None =>
      throw "Could not verify connection. IP detection failed after starting proxy."
  | Some proxyIp =>
      assign_isConnected true;;
      modify (set_connectionStartTime (Some (connectedAt env)));;
      modify (set_lastConnectedIP (Some proxyIp));;
      updateTray;;
      updateServerCountryInfo env (id activeServerConfig) proxyIp;;
      w <- get;;
      (if mainWindow w then send "vpn:connected" else ret tt);;
      (if negb isEmergencyReconnect
       then modify (set_sessionFailedServers [])
       else ret tt);;
      w <- get;;
      (if autoReconnectEnabled w then startMonitoring proxyIp else ret tt);;
      ret (mkResult true "Connected successfully")
  end.

(** The [catch] block of [connectVPN]. *)
Definition connectVPN_catch (e : string) : Eff Result :=
  disconnectVPN true;;
  ret (mkResult false ("Failed to connect: " ++ e)).

(** [connectVPN(isEmergencyReconnect = false)] *)
Definition connectVPN (isEmergencyReconnect : bool) : Eff Result :=
  w <- get;;
  if isConnected w then ret (mkResult false "Already connected")
  else
    match getActiveServer w with
    | None => ret (mkResult false "No active server selected")
    | Some activeServerConfig =>
        stopMonitoring;;
        env <- nextAttempt;;
        try_catch
          (connectVPN_launch env activeServerConfig;;
           connectVPN_establish env activeServerConfig isEmergencyReconnect)
          connectVPN_catch
    end.

(** The synchronous prefix of [connectVPN]: what has happened when the call
    is suspended at [await waitForProxy(...)] and other handlers may run.
    It completes normally exactly when the call reaches that [await]. *)
Definition connectVPN_until_await : Eff unit :=
  w <- get;;
  if isConnected w then throw "Already connected"
  else
    match getActiveServer w with
    | None => throw "No active server selected"
    | Some activeServerConfig =>
        stopMonitoring;;
        env <- nextAttempt;;
        connectVPN_launch env activeServerConfig
    end.

(** The [for ... of rankedServers] loop of [handleConnectionFailure];
    the result is the final value of [connected]. *)
Fixpoint failoverLoop (rankedServers : list Server) : Eff bool :=
  match rankedServers with
  | [] => ret false
  | nextServer :: rest =>
      serverManager_setActiveServer (id nextServer);;
      result <- connectVPN true;;
      if success result then
        w <- get;;
        (if mainWindow w then send "vpn:auto-failover" else ret tt);;
        ret true
      else
        sessionFailedServers_push (id nextServer);;
        disconnectVPN true;;
        failoverLoop rest
  end.

(** [networkMonitor.getRankedServers(availableServers)], awaited. *)
Definition getRankedServers (availableServers : list Server) : Eff (list Server) :=
  match rankingFault host with
  | Some e => throw e
  | None => ret (NetworkMonitor.getRankedServers (latency host) availableServers)
  end.

(** The candidates of a failover episode. *)
Definition availableServers (allServers : list Server) (failed : list ServerId)
  : list Server :=
  filter (fun s => negb (includes failed (id s))) allServers.

(** The [try] block of [handleConnectionFailure] once the candidates are
    known: give up, or rank them and try them in turn. *)
Definition failoverAttempt (available : list Server) : Eff unit :=
  if (length available =? 0)%nat then
    modify (set_sessionFailedServers [])
  else
    rankedServers <- getRankedServers available;;
    if (length rankedServers =? 0)%nat then ret tt
    else failoverLoop rankedServers;; ret tt.

(** The [try] block of [handleConnectionFailure]. *)
Definition failoverEpisode : Eff unit :=
  lastActiveServerId <- serverManager_getActiveServerId;;
  match truthy lastActiveServerId with
  | Some sid => sessionFailedServers_push sid
  | None => ret tt
  end;;
  disconnectVPN true;;
  allServers <- serverManager_getServers;;
  w <- get;;
  failoverAttempt (availableServers (servers allServers) (sessionFailedServers w)).

(** [handleConnectionFailure()] *)
Definition handleConnectionFailure : Eff unit :=
  w <- get;;
  if negb (autoReconnectEnabled w) || isAutoFailoverInProgress w then ret tt
  else
    modify (set_isAutoFailoverInProgress true);;
    try_finally
      (try_catch failoverEpisode (fun _ => ret tt))
      (modify (set_isAutoFailoverInProgress false)).

End WithHost.

End Main.

(** ** The renderer process (src/unnamed/part_000) *)

Module Renderer.

(** The [state] object of the renderer. *)
Record State := mkState {
  servers : list Server;
  activeServerId : option ServerId;
  isConnected : bool;
  isConnecting : bool;
  isDisconnecting : bool;
  isSwitching : bool;
  needsAutoReconnect : bool
}.

Definition set_isConnecting (v : bool) (st : State) : State :=
  {| servers := servers st; activeServerId := activeServerId st;
     isConnected := isConnected st; isConnecting := v;
     isDisconnecting := isDisconnecting st; isSwitching := isSwitching st;
     needsAutoReconnect := needsAutoReconnect st |}.

Definition set_isDisconnecting (v : bool) (st : State) : State :=
  {| servers := servers st; activeServerId := activeServerId st;
     isConnected := isConnected st; isConnecting := isConnecting st;
     isDisconnecting := v; isSwitching := isSwitching st;
     needsAutoReconnect := needsAutoReconnect st |}.

Definition set_needsAutoReconnect (v : bool) (st : State) : State :=
  {| servers := servers st; activeServerId := activeServerId st;
     isConnected := isConnected st; isConnecting := isConnecting st;
     isDisconnecting := isDisconnecting st; isSwitching := isSwitching st;
     needsAutoReconnect := v |}.

(** What a handler asks of the rest of the renderer and of the main
    process, in order.  Rendering is not modelled further. *)
Inductive Action :=
| ApiConnect                                   (* window.api.connect() *)
| ApiDisconnect                                (* window.api.disconnect() *)
| UpdateUI
| RenderServersList (forceUpdate : bool)
| ShowNotification (text kind : string).

(** What the page and the IPC bridge answer during one handler. *)
Record Dom := mkDom {
  pingPoor : bool;            (* the active server's item shows the 'poor' dot *)
  smartConnectEnabled : bool; (* the auto-failover toggle is checked *)
  apiFault : option string    (* the IPC call rejects with this message *)
}.

(** [connect()] *)
Definition connect (dom : Dom) (state : State) : State * list Action :=
  if isConnected state || isConnecting state
     || match truthy (activeServerId state) with Some _ => false | None => true end
  then (state, [])
  else if pingPoor dom then
    if smartConnectEnabled dom && (0 <? length (servers state))%nat then
      (set_needsAutoReconnect true state,
       [ShowNotification "Cannot connect to unavailable server" "error";
        RenderServersList true])
    else
      (state, [ShowNotification "Cannot connect to unavailable server" "error"])
  else
    match apiFault dom with
    | None => (set_isConnecting true state, [UpdateUI; ApiConnect])
    | Some e =>
        (set_isConnecting false (set_isConnecting true state),
         [UpdateUI; ApiConnect;
          ShowNotification ("Connection failed: " ++ e) "error"; UpdateUI])
    end.

(** [disconnect()] *)
Definition disconnect (dom : Dom) (state : State) : State * list Action :=
  if negb (isConnected state) || isDisconnecting state then (state, [])
  else
    let (state1, shown) :=
      if negb (isSwitching state)
      then (set_isDisconnecting true state, [UpdateUI])
      else (state, []) in
    match apiFault dom with
    | None => (state1, (shown ++ [ApiDisconnect])%list)
    | Some e =>
        (set_isDisconnecting false state1,
         (shown ++ [ApiDisconnect;
                    ShowNotification ("Disconnect failed: " ++ e) "error";
                    UpdateUI])%list)
    end.

(** The comparator of [serversWithPings.sort] in [renderServersList]:
    reachable servers first, by ping; unreachable ones are kept, last. *)
Definition comparePings (a b : option Z) : Z :=
  match a, b with
  | Some _, None => -1
  | None, Some _ => 1
  | Some x, Some y => x - y
  | None, None => 0
  end.

(** [Array.prototype.sort] is stable: an element moves in front of another
    one only where the comparator is negative. *)
Fixpoint insertSorted {A} (cmp : A -> A -> Z) (x : A) (sorted : list A) : list A :=
  match sorted with
  | [] => [x]
  | y :: rest =>
      if 0 <? cmp y x then x :: y :: rest else y :: insertSorted cmp x rest
  end.

Definition sort {A} (cmp : A -> A -> Z) (l : list A) : list A :=
  fold_left (fun acc x => insertSorted cmp x acc) l [].

Definition sortServersWithPings (l : list (Server * option Z))
  : list (Server * option Z) :=
  sort (fun a b => comparePings (snd a) (snd b)) l.

End Renderer.

(** ** The renderer's server list after a ping round (src/unnamed/part_000) *)

Module RendererList.

(** A server with its ping, as [renderServersList] holds them. *)
Definition Pinged := (Server * option Z)%type.

(** [item.ping !== null] *)
Definition isHealthy (item : Pinged) : bool :=
  match snd item with Some _ => true | None => false end.

(** The choice made in [renderServersList] when an auto-reconnect is
    pending, smart connect is on and the list is not empty:
    [serversWithPings.find(item => item.ping !== null)], followed by the
    test against the active server.  The result is the server handed to
    [selectServer], if any, and the new value of [needsAutoReconnect]. *)
Definition autoReconnectChoice (sorted : list Pinged)
    (activeServerId : option ServerId) : option Server * bool :=
  match find isHealthy sorted with
  | Some firstHealthyServer =>
      if match activeServerId with
         | Some a => negb (String.eqb (id (fst firstHealthyServer)) a)
         | None => true
         end
      then (Some (fst firstHealthyServer), false)
      else (None, true)
  | None => (None, false)
  end.

(** For the statements: the order the comparator of the sort induces. *)
Definition pingOrder (a b : Pinged) : Prop :=
  Renderer.comparePings (snd a) (snd b) <= 0.

End RendererList.

(** ** Escaping for HTML ([escapeHtml] of the renderer) *)

Module Html.
Import Ascii.

(** A JavaScript string is taken as its sequence of bytes (UTF-8): the five
    characters below are ASCII, and an ASCII byte never occurs inside the
    encoding of another character. *)
Definition amp : ascii := "&"%char.
Definition lt : ascii := "<"%char.
Definition gt : ascii := ">"%char.
Definition quot : ascii := ascii_of_nat 34.
Definition apos : ascii := "'"%char.

(** [s.replace(/c/g, by)] for a single character [c]. *)
Fixpoint replaceAll (c : ascii) (by_ : string) (s : string) : string :=
  match s with
  | EmptyString => EmptyString
  | String d rest =>
      if Ascii.eqb d c then by_ ++ replaceAll c by_ rest
      else String d (replaceAll c by_ rest)
  end.

(** [escapeHtml(unsafe)]: five passes, the ampersand first. *)
Definition escapeHtml (unsafe : string) : string :=
  replaceAll apos "&#039;"
    (replaceAll quot "&quot;"
       (replaceAll gt "&gt;"
          (replaceAll lt "&lt;"
             (replaceAll amp "&amp;" unsafe)))).

(** For the statements: what becomes of one character, and the substitution
    that handles all five characters at once. *)
Definition escapeChar (d : ascii) : string :=
  if Ascii.eqb d amp then "&amp;"
  else if Ascii.eqb d lt then "&lt;"
  else if Ascii.eqb d gt then "&gt;"
  else if Ascii.eqb d quot then "&quot;"
  else if Ascii.eqb d apos then "&#039;"
  else String d EmptyString.

Fixpoint substitute (s : string) : string :=
  match s with
  | EmptyString => EmptyString
  | String d rest => escapeChar d ++ substitute rest
  end.

(** The characters that can open or close markup or an attribute value. *)
Definition isMarkup (d : ascii) : bool :=
  Ascii.eqb d lt || Ascii.eqb d gt || Ascii.eqb d quot || Ascii.eqb d apos.

Fixpoint occurs (d : ascii) (s : string) : bool :=
  match s with
  | EmptyString => false
  | String e rest => Ascii.eqb e d || occurs d rest
  end.

End Html.

(** ** The uptime clock (getStatus in src/afterSignHook.js, updateUptime in
    src/unnamed/part_000) *)

Module Uptime.

(** [s.padStart(2, '0')] *)
Definition padStart2 (s : string) : string :=
  match String.length s with
  | 0%nat => "00"
  | 1%nat => "0" ++ s
  | _ => s
  end.

(** [Math.floor(a / b)] on integers with [b] positive, and [a % b], which
    takes the sign of [a].  The time stamps are integers far below 2^53, so
    the floating-point operations of the source are exact. *)
Definition floorDiv (a b : Z) : Z := a / b.

Definition remainder (a b : Z) : Z := Z.rem a b.

(** JavaScript truthiness of a nullable time stamp: [null] and 0 are falsy. *)
Definition truthyTime (t : option Z) : option Z :=
  match t with
  | Some 0 => None
  | other => other
  end.

(** The [uptime] object of a status report. *)
Record Fields := mkFields {
  hours : string;
  minutes : string;
  seconds : string
}.

(** [getStatus()], the computation of [status.uptime] when connected; [now]
    is [Date.now()].  Without a start time the field is left out.
    ([Math.floor(uptime % 60)] is [uptime % 60], an integer already.) *)
Definition statusUptime (now : Z) (connectionStartTime : option Z)
  : option Fields :=
  match truthyTime connectionStartTime with
  | None => None
  | Some start =>
      let uptime := floorDiv (now - start) 1000 in
      Some {| hours := padStart2 (show_Z (floorDiv uptime 3600));
              minutes := padStart2 (show_Z (floorDiv (remainder uptime 3600) 60));
              seconds := padStart2 (show_Z (remainder uptime 60)) |}
  end.

(** [updateUptime()] of the renderer: the new text of the uptime label, or
    [None] when the function returns without touching it. *)
Definition updateUptime (now : Z) (connectionStartTime : option Z)
  : option string :=
  match truthyTime connectionStartTime with
  | None => None
  | Some start =>
      let uptime := now - start in
      let hours := padStart2 (show_Z (floorDiv uptime 3600000)) in
      let minutes :=
        padStart2 (show_Z (floorDiv (remainder uptime 3600000) 60000)) in
      let seconds :=
        padStart2 (show_Z (floorDiv (remainder uptime 60000) 1000)) in
      Some (hours ++ ":" ++ minutes ++ ":" ++ seconds)
  end.

(** The text a status report would give if printed like the label. *)
Definition clock (f : Fields) : string :=
  hours f ++ ":" ++ minutes f ++ ":" ++ seconds f.

End Uptime.

(** ** Switching the active server (src/afterSignHook.js, setActiveServer) *)

Module ServerSwitch.
Import Main.

Definition set_serversData (v : ServersData) (w : World) : World :=
  {| mainWindow := mainWindow w; tray := tray w; xrayProcess := xrayProcess
     w; isConnected := isConnected w; connectionStartTime :=
     connectionStartTime w; serversData := v; autoReconnectEnabled :=
     autoReconnectEnabled w; isAutoFailoverInProgress :=
     isAutoFailoverInProgress w; lastConnectedIP := lastConnectedIP w;
     sessionFailedServers := sessionFailedServers w; store := store w;
     monitor := monitor w; systemProxy := systemProxy w; running := running
     w; spawned := spawned w; attempts := attempts w; trace := trace w |}.

(** What [setActiveServer] returns: [{ success: true, server }] or
    [{ success: false, message }]. *)
Inductive SwitchResult :=
| Switched (server : Server)
| NotSwitched (message : string).

(** What the outside answers during one switch. *)
Record SwitchEnv := mkSwitchEnv {
  notFoundMessage : string;   (* setResult.message for an unknown id *)
  loadFault : option string;  (* serverManager.loadServers() throws *)
  undefinedName : string      (* the TypeError of [undefined.name] *)
}.

(** Modelled from the spec: [serverManager.loadServers], which reads the
    store (serverManager.js is missing). *)
Definition serverManager_loadServers (env : SwitchEnv) : Eff ServersData :=
  match loadFault env with
  | Some e => throw e
  | None => w <- get;; ret (store w)
  end.

Section WithHost.
Variable host : Host.
Variable env : SwitchEnv.

(** The reconnect of both the [try] and the [catch] block: [connectVPN()]
    is awaited and its result dropped. *)
Definition reconnect (wasConnected : bool) : Eff unit :=
  if wasConnected then connectVPN host false;; ret tt else ret tt.

(** [setActiveServer(serverId)], inside [try].  The pause of 500 ms before
    the reconnect is a suspension point at which nothing is interleaved
    here. *)
Definition setActiveServer_try (serverId : ServerId) (wasConnected : bool)
  : Eff SwitchResult :=
  (if wasConnected then disconnectVPN true;; ret tt else ret tt);;
  setResult <- serverManager_setActiveServer serverId;;
  (if negb setResult then throw (notFoundMessage env) else ret tt);;
  data <- serverManager_loadServers env;;
  modify (set_serversData data);;
  updateTray;;
  w <- get;;
  match find_by_id (servers (serversData w)) serverId with
  | None => throw (undefinedName env)
  | Some activeServer =>
      reconnect wasConnected;;
      ret (Switched activeServer)
  end.

(** [setActiveServer(serverId)] *)
Definition setActiveServer (serverId : ServerId) : Eff SwitchResult :=
  stopMonitoring;;
  w <- get;;
  let wasConnected := isConnected w in
  try_catch
    (setActiveServer_try serverId wasConnected)
    (fun e => reconnect wasConnected;; ret (NotSwitched e)).

End WithHost.

End ServerSwitch.

(** ** The system proxy (src/afterSignHook.js, configureProxy) *)

Module SystemProxy.
Import Ascii.

(** [s.includes(needle)] *)
Fixpoint contains (needle s : string) : bool :=
  String.prefix needle s ||
  match s with
  | EmptyString => false
  | String _ rest => contains needle rest
  end.

(** [s.split(sep)] for a separator of one character. *)
Fixpoint split (sep : ascii) (s : string) : list string :=
  match s with
  | EmptyString => [EmptyString]
  | String c rest =>
      if Ascii.eqb c sep then EmptyString :: split sep rest
      else
        match split sep rest with
        | [] => [String c EmptyString]
        | first :: others => String c first :: others
        end
  end.

Definition newline : ascii := ascii_of_nat 10.

Inductive ProxyKind := socks | web | secureweb.

(** What [configureProxy] asks of the host, by command line:
    - [ListAllNetworkServices]: networksetup -listallnetworkservices
    - [AdminPrompt]: the osascript call of [requestAdminAccess]
    - [ChromeDnsOff], [ChromeDnsRestore]: defaults write / defaults delete
      com.google.Chrome DnsOverHttpsMode
    - [SetProxy socks s p]: networksetup -setsocksfirewallproxy s 127.0.0.1 p
      (-setwebproxy, -setsecurewebproxy for the other kinds)
    - [SetProxyState socks s b]: networksetup -setsocksfirewallproxystate s
      on or off (-setwebproxystate, -setsecurewebproxystate)
    - [RegProxyEnable d], [RegProxyServer v]: reg add of ProxyEnable and
      ProxyServer under Internet Settings
    - [GSettingsMode m], [GSettingsSocksHost h], [GSettingsSocksPort p]:
      gsettings set org.gnome.system.proxy
    and of Electron: [SessionSetProxy rules] is
    session.defaultSession.setProxy with these proxyRules, which is taken
    not to throw. *)
Inductive Command :=
| ListAllNetworkServices
| AdminPrompt
| ChromeDnsOff
| ChromeDnsRestore
| SetProxy (kind : ProxyKind) (service : string) (port : Z)
| SetProxyState (kind : ProxyKind) (service : string) (on : bool)
| RegProxyEnable (d : Z)
| RegProxyServer (value : string)
| GSettingsMode (mode : string)
| GSettingsSocksHost (host : string)
| GSettingsSocksPort (port : Z)
| SessionSetProxy (proxyRules : string).

(** The host during one call: [fault c] is the message of the error that
    command [c] throws, if it does; [sortServices] is [Array.prototype.sort]
    with the comparator of the source, which is not a consistent comparison
    (it answers -1 both ways for two names that contain Wi-Fi), so that the
    order is the engine's choice. *)
Record Shell := mkShell {
  platform : string;
  fault : Command -> option string;
  servicesOutput : string;
  sortServices : list string -> list string
}.

(** The object returned: [{ success }] or [{ success, message }]. *)
Record ProxyResult := mkProxyResult {
  success : bool;
  message : option string
}.

(** [execSync(c)]; [log] holds the commands issued so far, oldest first. *)
Definition execSync (sh : Shell) (c : Command) (log : list Command)
  : option string * list Command :=
  (fault sh c, (log ++ [c])%list).

(** The commands of one [try] block, up to the first that throws. *)
Fixpoint execAll (sh : Shell) (cs : list Command) (log : list Command)
  : option string * list Command :=
  match cs with
  | [] => (None, log)
  | c :: rest =>
      match execSync sh c log with
      | (Some e, log') => (Some e, log')
      | (None, log') => execAll sh rest log'
      end
  end.

Definition completed (r : option string) : bool :=
  match r with
  | None => true
  | Some _ => false
  end.

(** [service && !service.includes('*')] *)
Definition enabledService (service : string) : bool :=
  negb (String.eqb service "") && negb (contains "*" service).

(** [service.includes('Wi-Fi') || service.includes('Ethernet')] *)
Definition isPrimary (service : string) : bool :=
  contains "Wi-Fi" service || contains "Ethernet" service.

(** The commands that switch one kind of proxy for one service. *)
Definition proxyCommands (enable : bool) (kind : ProxyKind) (service : string)
  : list Command :=
  if enable then
    [SetProxy kind service (match kind with socks => 10808 | _ => 10809 end);
     SetProxyState kind service true]
  else [SetProxyState kind service false].

(** The body of the loop over [primaryServices]: three [try] blocks, of
    which only the first sets [configuredSuccessfully]. *)
Definition configureService (sh : Shell) (enable : bool)
    (st : bool * list Command) (service : string) : bool * list Command :=
  let (configuredSuccessfully, log) := st in
  let (r, log) := execAll sh (proxyCommands enable socks service) log in
  let (_, log) := execAll sh (proxyCommands enable web service) log in
  let (_, log) := execAll sh (proxyCommands enable secureweb service) log in
  (configuredSuccessfully || completed r, log).

(** The [catch] block around the whole body. *)
Definition caught (e : string) : ProxyResult :=
  mkProxyResult false (Some ("Error configuring proxy: " ++ e)).

(** The branch [process.platform === 'darwin'].  [primaryServices] is
    declared [const]; the assignment of the fallback to it throws a
    TypeError, which the [catch] around the body turns into a result. *)
Definition configureProxy_darwin (sh : Shell) (enable : bool)
  : ProxyResult * list Command :=
  match execSync sh ListAllNetworkServices [] with
  | (Some e, log) => (caught e, log)
  | (None, log) =>
      let services :=
        filter enabledService (split newline (servicesOutput sh)) in
      let prioritizedServices := sortServices sh services in
      let primaryServices := filter isPrimary prioritizedServices in
      if (length primaryServices =? 0)%nat then
        (caught "Assignment to constant variable.", log)
      else
        let (_, log) := execAll sh [AdminPrompt] log in
        let (_, log) :=
          execAll sh [if enable then ChromeDnsOff else ChromeDnsRestore] log in
        let (configuredSuccessfully, log) :=
          fold_left (configureService sh enable) primaryServices (false, log) in
        (mkProxyResult configuredSuccessfully None,
         (log ++ [SessionSetProxy
                    (if enable then "socks5://127.0.0.1:10808" else "")])%list)
  end.

(** The branches for win32 and linux: one [try] block each. *)
Definition configureProxy_other (sh : Shell) (enable : bool)
    (commands : list Command) (label : string) : ProxyResult * list Command :=
  match execAll sh commands [] with
  | (Some e, log) => (mkProxyResult false (Some (label ++ e)), log)
  | (None, log) =>
      (mkProxyResult true None,
       (log ++ [SessionSetProxy
                  (if enable then "socks5://127.0.0.1:1080" else "")])%list)
  end.

(** [configureProxy(enable)] *)
Definition configureProxy (sh : Shell) (enable : bool) : ProxyResult * list Command :=
  if String.eqb (platform sh) "darwin" then configureProxy_darwin sh enable
  else if String.eqb (platform sh) "win32" then
    configureProxy_other sh enable
      (if enable
       then [RegProxyEnable 1; RegProxyServer "socks=127.0.0.1:1080"]
       else [RegProxyEnable 0])
      "Windows proxy error: "
  else if String.eqb (platform sh) "linux" then
    configureProxy_other sh enable
      (if enable
       then [GSettingsMode "manual"; GSettingsSocksHost "127.0.0.1";
             GSettingsSocksPort 1080]
       else [GSettingsMode "none"])
      "Linux proxy error: "
  else
    (mkProxyResult false
       (Some ("Platform " ++ platform sh ++ " not supported")), []).

(** The service a command configures, if it configures one. *)
Definition serviceOf (c : Command) : option string :=
  match c with
  | SetProxy _ service _ => Some service
  | SetProxyState _ service _ => Some service
  | _ => None
  end.

(** Whether the SOCKS commands for a service go through. *)
Definition socksApplied (sh : Shell) (enable : bool) (service : string) : bool :=
  forallb (fun c => completed (fault sh c)) (proxyCommands enable socks service).

(** The lines of the service listing that [configureProxy] acts upon. *)
Definition eligible (sh : Shell) (service : string) : Prop :=
  In service (split newline (servicesOutput sh)) /\
  enabledService service = true /\
  isPrimary service = true.

End SystemProxy.

(** ** Vocabulary of the statements *)

Module Observe.
Import Main.

(** The effects of a teardown, in the order [disconnectVPN] produces them. *)
Definition teardownEffects (w : World) : list Event :=
  (match xrayProcess w with Some p => [EvKill p] | None => [] end
   ++ [EvConfigureProxy false; EvConnected false; EvStopMonitoring]
   ++ (if tray w then [EvUpdateTray false] else [])
   ++ (if mainWindow w
       then [EvSend "vpn:status-change"; EvSend "vpn:disconnected"]
       else []))%list.

(** The world a teardown leaves behind. *)
Definition tornDown (w : World) : World :=
  {| mainWindow := mainWindow w;
     tray := tray w;
     xrayProcess := None;
     isConnected := false;
     connectionStartTime := None;
     serversData := serversData w;
     autoReconnectEnabled := autoReconnectEnabled w;
     isAutoFailoverInProgress := isAutoFailoverInProgress w;
     lastConnectedIP := lastConnectedIP w;
     sessionFailedServers := sessionFailedServers w;
     store := store w;
     monitor := None;
     systemProxy := false;
     running := match xrayProcess w with
                | Some p => remove Nat.eq_dec p (running w)
                | None => running w
                end;
     spawned := spawned w;
     attempts := attempts w;
     trace := (trace w ++ teardownEffects w)%list |}.




(** The effects a run added to the trace. *)
Definition effectsSince (before after : World) : list Event :=
  skipn (length (trace before)) (trace after).

(** The supervisor is in the Disconnected state. *)
Definition Disconnected (w : World) : Prop := isConnected w = false.

Definition succeeded (c : Completion Result) : Prop :=
  exists r, c = Normal r /\ success r = true.

Definition failed (c : Completion Result) : Prop :=
  exists r, c = Normal r /\ success r = false.

(** The failed-server list once a failure report has added the active
    server to it (step 1 of the failover algorithm). *)
Definition failedAfterReport (w : World) : list ServerId :=
  match truthy (activeServer (store w)) with
  | Some sid => (sessionFailedServers w ++ [sid])%list
  | None => sessionFailedServers w
  end.

(** The candidates of the episode: all known servers minus the session. *)
Definition candidatesOf (w : World) : list Server :=
  availableServers (servers (store w)) (failedAfterReport w).

(** The world once the report has been recorded, and once the silent
    disconnect that follows has run. *)
Definition reported (w : World) : World :=
  set_sessionFailedServers (failedAfterReport w) w.

Definition silenced (w : World) : World :=
  if isConnected w then tornDown w else w.

(** An effectful computation that leaves the auto-reconnect setting alone. *)
Definition keepsAuto {A} (m : Eff A) : Prop :=
  forall w, autoReconnectEnabled (snd (m w)) = autoReconnectEnabled w.

End Observe.

(** ** Sample data *)

Module Sample.

Definition serverA : Server := mkServer "A" "Amsterdam" "a.example.net" 443.
Definition serverB : Server := mkServer "B" "Berlin" "b.example.net" 443.
Definition serverC : Server := mkServer "C" "Chicago" "c.example.net" 8443.

(** [[{id:A, ping:50}, {id:B, ping:null}, {id:C, ping:10}]] *)
Definition samples : list NetworkMonitor.HealthSample :=
  [(serverA, Some 50); (serverB, None); (serverC, Some 10)].

Definition latency (s : Server) : option Z :=
  if String.eqb (id s) "A" then Some 50
  else if String.eqb (id s) "C" then Some 10
  else None.

Definition catalogue : ServersData :=
  mkServersData [serverA; serverB; serverC] (Some "A").

(** The main process after start-up: three servers, A active, a window and
    a tray, nothing running. *)
Definition idle : Main.World :=
  {| Main.mainWindow := true; Main.tray := true; Main.xrayProcess := None;
     Main.isConnected := false; Main.connectionStartTime := None;
     Main.serversData := catalogue; Main.autoReconnectEnabled := true;
     Main.isAutoFailoverInProgress := false; Main.lastConnectedIP := None;
     Main.sessionFailedServers := []; Main.store := catalogue;
     Main.monitor := None; Main.systemProxy := false; Main.running := [];
     Main.spawned := 0%nat; Main.attempts := 0%nat; Main.trace := [] |}.

(** Nothing listens on the local port: every socket is refused after 3 ms. *)
Definition deadPort (port : Z) (host : string) (n : nat) : ProxyWait.SocketOutcome :=
  ProxyWait.Refused 3.

(** Nothing listens and every refusal takes four seconds to arrive. *)
Definition stalledPort (port : Z) (host : string) (n : nat)
  : ProxyWait.SocketOutcome :=
  ProxyWait.Refused 4000.

(** The tunnel opens its port while the third socket is tried. *)
Definition slowStart (port : Z) (host : string) (n : nat) : ProxyWait.SocketOutcome :=
  if (n <? 2)%nat then ProxyWait.Refused 1 else ProxyWait.Accepted 2.

(** An attempt that goes through: the address 203.0.113.7 is observed. *)
Definition goodAttempt : Main.ConnectEnv :=
  {| Main.configFault := None; Main.xrayBinary := true;
     Main.network := slowStart; Main.waitStart := 1000;
     Main.detectedIp := Some "203.0.113.7"; Main.connectedAt := 2500;
     Main.storeFault := None |}.

(** An attempt whose tunnel process never opens its port. *)
Definition neverReady : Main.ConnectEnv :=
  {| Main.configFault := None; Main.xrayBinary := true;
     Main.network := deadPort; Main.waitStart := 1000;
     Main.detectedIp := Some "203.0.113.7"; Main.connectedAt := 2500;
     Main.storeFault := None |}.

(** An attempt whose tunnel starts but carries no traffic. *)
Definition noTraffic : Main.ConnectEnv :=
  {| Main.configFault := None; Main.xrayBinary := true;
     Main.network := slowStart; Main.waitStart := 1000;
     Main.detectedIp := None; Main.connectedAt := 2500;
     Main.storeFault := None |}.

(** An attempt that is verified, after which the server list cannot be
    loaded. *)
Definition lateFault : Main.ConnectEnv :=
  {| Main.configFault := None; Main.xrayBinary := true;
     Main.network := slowStart; Main.waitStart := 1000;
     Main.detectedIp := Some "203.0.113.7"; Main.connectedAt := 2500;
     Main.storeFault := Some "ENOENT" |}.

Definition hostOf (env : Main.ConnectEnv) : Main.Host :=
  {| Main.attempt := fun _ => env; Main.latency := latency;
     Main.rankingFault := None |}.

(** Idle, with B remembered as failed by an earlier failover. *)
Definition idleAfterFailover : Main.World :=
  Main.set_sessionFailedServers ["B"] idle.

(** The main process once a manual connect has gone through. *)
Definition connected : Main.World :=
  snd (Main.connectVPN (hostOf goodAttempt) false idle).

(** Connected to A after B and C have failed in this session. *)
Definition lastResort : Main.World :=
  Main.set_sessionFailedServers ["B"; "C"] connected.

(** A host on which no candidate answers the latency probe. *)
Definition deafHost : Main.Host :=
  {| Main.attempt := fun _ => goodAttempt; Main.latency := fun _ => None;
     Main.rankingFault := None |}.

(** A host on which the ranking itself fails. *)
Definition faultyHost : Main.Host :=
  {| Main.attempt := fun _ => goodAttempt; Main.latency := latency;
     Main.rankingFault := Some "ENETDOWN" |}.

(** A host on which B answers in 80 ms and C in 20 ms, the first attempt
    after the one that made [connected] carries no traffic and the next one
    goes through. *)
Definition secondChoiceHost : Main.Host :=
  {| Main.attempt := fun n => if (n =? 1)%nat then noTraffic else goodAttempt;
     Main.latency := fun s => if String.eqb (id s) "B" then Some 80
                              else if String.eqb (id s) "C" then Some 20
                              else None;
     Main.rankingFault := None |}.

(** A renderer that believes a connect is in flight. *)
Definition rendererConnecting : Renderer.State :=
  {| Renderer.servers := [serverA; serverB; serverC];
     Renderer.activeServerId := Some "A";
     Renderer.isConnected := false; Renderer.isConnecting := true;
     Renderer.isDisconnecting := false; Renderer.isSwitching := false;
     Renderer.needsAutoReconnect := false |}.

Definition calmPage : Renderer.Dom :=
  {| Renderer.pingPoor := false; Renderer.smartConnectEnabled := true;
     Renderer.apiFault := None |}.

End Sample.

(* ================================================================== *)
(** * Properties *)

(** ** Readiness wait *)

Section ReadinessWait.
Import ProxyWait.

Variable sock : nat -> SocketOutcome.
Variables startTime timeout : Z.

(** With one entry more than the remaining budget holds retries,
    [tryConnect] settles the promise. *)
Lemma tryConnect_settles (fuel : nat) :
  forall now n,
    timeout - (now - startTime) < retryDelay * Z.of_nat fuel ->
    settled (tryConnect (S fuel) sock startTime timeout now n) <> Pending.
Proof.
  unfold retryDelay.
  induction fuel as [|fuel IH]; intros now n Hfuel;
    cbn [tryConnect];
    destruct (now - startTime >? timeout) eqn:Hover; try discriminate;
    rewrite Z.gtb_ltb, Z.ltb_ge in Hover.
  - lia.
  - destruct (sock n) as [d|d]; [discriminate|].
    apply IH; unfold retryDelay; lia.
Qed.

(** Socket [n] is opened at least [n] retry delays after the start. *)
Lemma openedAt_lower (n : nat) :
  retryDelay * Z.of_nat n <= openedAt sock startTime n - startTime.
Proof.
  unfold retryDelay.
  induction n as [|n IH]; cbn [openedAt]; unfold retryDelay; lia.
Qed.

(** What a run of [tryConnect] entered at socket [n] does: it keeps opening
    sockets while they are refused and the budget lasts, and stops at the
    first socket [k] that is accepted or that would be opened too late. *)
Lemma tryConnect_run (fuel : nat) :
  forall now n,
    timeout - (now - startTime) < retryDelay * Z.of_nat fuel ->
    now = openedAt sock startTime n ->
    exists k,
      (n <= k)%nat /\
      (forall j, (n <= j < k)%nat ->
         openedAt sock startTime j - startTime <= timeout /\
         exists d, sock j = Refused d) /\
      ((exists d, sock k = Accepted d /\
          openedAt sock startTime k - startTime <= timeout /\
          tryConnect (S fuel) sock startTime timeout now n =
            mkWaitRun Resolved (openedAt sock startTime k + Z.of_nat d) (S k)) \/
       (timeout < openedAt sock startTime k - startTime /\
          tryConnect (S fuel) sock startTime timeout now n =
            mkWaitRun (Rejected (timeoutMessage timeout))
                      (openedAt sock startTime k) k)).
Proof.
  induction fuel as [|fuel IH]; intros now n Hfuel ->;
    cbn [tryConnect];
    destruct (openedAt sock startTime n - startTime >? timeout) eqn:Hover;
    rewrite Z.gtb_ltb in Hover;
    try (apply Z.ltb_lt in Hover; exists n;
         split; [lia | split; [intros j Hj; lia | right; auto]]);
    rewrite Z.ltb_ge in Hover.
  - unfold retryDelay in Hfuel. lia.
  - destruct (sock n) as [d|d] eqn:Hsock.
    + exists n. split; [lia | split; [intros j Hj; lia |]].
      left. exists d. auto.
    + destruct (IH (openedAt sock startTime n + Z.of_nat d + retryDelay) (S n))
        as (k & Hk & Hbefore & Hend).
      * unfold retryDelay in *. lia.
      * cbn [openedAt]. rewrite Hsock. reflexivity.
      * exists k. split; [lia | split; [| exact Hend]].
        intros j Hj. destruct (Nat.eq_dec j n) as [->|Hne].
        -- split; [exact Hover | eauto].
        -- apply Hbefore. lia.
Qed.

End ReadinessWait.

(** [waitForProxy] always settles its promise: the entries it is given are
    enough for every timeout and every behaviour of the network. *)
Lemma waitForProxy_settles network startTime port host timeout :
  ProxyWait.settled (ProxyWait.waitForProxy network startTime port host timeout)
    <> ProxyWait.Pending.
Proof.
  unfold ProxyWait.waitForProxy, ProxyWait.maxEntries.
  set (t := match timeout with Some t => t | None => ProxyWait.defaultTimeout end).
  replace (Z.to_nat (t / ProxyWait.retryDelay) + 2)%nat
    with (S (Z.to_nat (t / ProxyWait.retryDelay) + 1)) by lia.
  apply tryConnect_settles.
  unfold ProxyWait.retryDelay.
  destruct (Z.le_gt_cases 0 t) as [Hpos|Hneg].
  - pose proof (Z.div_pos t 200 Hpos ltac:(lia)).
    pose proof (Z.mul_succ_div_gt t 200 ltac:(lia)). lia.
  - lia.
Qed.

(** Nothing ever listens: 50 sockets are opened, at 1000, 1203, ...,
    10947 ms, and the check before the 51st, at 11150 ms, rejects. *)
Example waitForProxy_dead_port :
  ProxyWait.waitForProxy Sample.deadPort 1000 10808 "127.0.0.1" None =
    ProxyWait.mkWaitRun
      (ProxyWait.Rejected "Proxy connection timed out after 10000ms") 11150 50.
Proof. reflexivity. Qed.

(** The third socket is accepted, 404 ms after the start. *)
Example waitForProxy_slow_start :
  ProxyWait.waitForProxy Sample.slowStart 1000 10808 "127.0.0.1" None =
    ProxyWait.mkWaitRun ProxyWait.Resolved 1404 3.
Proof. reflexivity. Qed.

(** C9, as the code has it.  The readiness wait is an active-retry loop
    that always ends.  For every port and host and every behaviour of the
    network, [waitForProxy] with the default timeout settles its promise
    after some number [k] of refused connection attempts, [k <= 51];
    attempt [j+1] is opened 200 ms after attempt [j] was refused
    ([openedAt]), and every attempt is opened within the 10000 ms budget.
    It resolves when attempt [k] is accepted (the first accepted
    connection), and it rejects with the time-out error at the first retry
    that finds the budget exceeded, which is later than 10000 ms after the
    start.  The budget bounds when attempts are opened, not when the promise
    settles: the sockets have no time-out of their own, and when none takes
    longer than [longest] ms to answer, the promise settles no later than
    10000 + [longest] + 200 ms after the start. *)
Theorem waitForProxy_bounded_retry :
  forall (network : Z -> string -> nat -> ProxyWait.SocketOutcome)
         (startTime port : Z) (host : string),
    let sock := network port host in
    let run := ProxyWait.waitForProxy network startTime port host None in
    (exists k,
      (k <= 51)%nat /\
      (forall j, (j < k)%nat ->
         ProxyWait.openedAt sock startTime j - startTime <= 10000 /\
         ProxyWait.openedAt sock startTime (S j) =
           ProxyWait.openedAt sock startTime j
           + Z.of_nat (ProxyWait.duration (sock j)) + 200 /\
         exists d, sock j = ProxyWait.Refused d) /\
      ((exists d, sock k = ProxyWait.Accepted d /\
          ProxyWait.openedAt sock startTime k - startTime <= 10000 /\
          run = ProxyWait.mkWaitRun ProxyWait.Resolved
                  (ProxyWait.openedAt sock startTime k + Z.of_nat d) (S k)) \/
       (10000 < ProxyWait.openedAt sock startTime k - startTime /\
          run = ProxyWait.mkWaitRun
                  (ProxyWait.Rejected "Proxy connection timed out after 10000ms")
                  (ProxyWait.openedAt sock startTime k) k))) /\
    ProxyWait.settled run <> ProxyWait.Pending /\
    (forall longest : nat,
       (forall n, (ProxyWait.duration (sock n) <= longest)%nat) ->
       ProxyWait.settledAt run - startTime <= 10000 + Z.of_nat longest + 200).
Proof.
  intros network startTime port host sock run.
  destruct (tryConnect_run sock startTime 10000 51 startTime 0)
    as (k & _ & Hbefore & Hend).
  { unfold ProxyWait.retryDelay. lia. }
  { reflexivity. }
  subst run.
  split; [| split].
  - exists k. split; [| split].
    + destruct k as [|k]; [lia|].
      destruct (Hbefore k ltac:(lia)) as [Hin _].
      pose proof (openedAt_lower sock startTime k) as Hlow.
      unfold ProxyWait.retryDelay in Hlow. lia.
    + intros j Hj. destruct (Hbefore j ltac:(lia)) as [Hin Href].
      split; [exact Hin | split; [reflexivity | exact Href]].
    + exact Hend.
  - apply waitForProxy_settles.
  - intros longest Hlong.
    change (ProxyWait.waitForProxy network startTime port host None)
      with (ProxyWait.tryConnect 52 sock startTime 10000 startTime 0).
    destruct Hend as [(d & Hacc & Hin & ->) | (Hout & ->)];
      cbn [ProxyWait.settledAt].
    + specialize (Hlong k). rewrite Hacc in Hlong. cbn in Hlong. lia.
    + destruct k as [|k]; cbn [ProxyWait.openedAt]; [lia|].
      destruct (Hbefore k ltac:(lia)) as [Hin _].
      specialize (Hlong k). unfold ProxyWait.retryDelay. lia.
Qed.

Lemma waitForProxy_bounded_retry_witness :
  ProxyWait.settledAt
    (ProxyWait.waitForProxy Sample.deadPort 1000 10808 "127.0.0.1" None) - 1000
    <= 10000 + Z.of_nat 3 + 200.
Proof.
  apply (proj2 (proj2 (waitForProxy_bounded_retry Sample.deadPort 1000 10808
                         "127.0.0.1")) 3%nat).
  intros n. cbn. lia.
Defined.

(** C9, as the design document words it, fails: the wait does not end
    within the budget of 10 seconds.  On a port where nothing listens and
    each refusal arrives after 3 ms, the promise rejects 10150 ms after the
    start; when each refusal takes four seconds, three sockets are opened
    and it rejects 12600 ms after the start. *)
Lemma waitForProxy_settles_after_budget :
  let dead :=
    ProxyWait.waitForProxy Sample.deadPort 1000 10808 "127.0.0.1" None in
  let stalled :=
    ProxyWait.waitForProxy Sample.stalledPort 1000 10808 "127.0.0.1" None in
  ProxyWait.settled dead =
    ProxyWait.Rejected "Proxy connection timed out after 10000ms" /\
  ProxyWait.settledAt dead - 1000 = 10150 /\
  10000 < ProxyWait.settledAt dead - 1000 /\
  ProxyWait.settled stalled =
    ProxyWait.Rejected "Proxy connection timed out after 10000ms" /\
  ProxyWait.socketsOpened stalled = 3%nat /\
  ProxyWait.settledAt stalled - 1000 = 12600.
Proof. repeat split; reflexivity. Qed.


(** ** Latency ranking *)

Section Ranking.
Import NetworkMonitor.

Lemma insertByPing_perm x l : Permutation (insertByPing x l) (x :: l).
Proof.
  induction l as [|y l IH]; cbn [insertByPing]; [reflexivity|].
  destruct (snd x <=? snd y); [reflexivity|].
  rewrite IH. apply perm_swap.
Qed.

Lemma insertByPing_hd x l d :
  HdRel byPing d l -> byPing d x -> HdRel byPing d (insertByPing x l).
Proof.
  intros Hl Hx. destruct l as [|y l]; cbn [insertByPing].
  - constructor. exact Hx.
  - inversion Hl; subst. destruct (snd x <=? snd y); constructor; assumption.
Qed.

Lemma insertByPing_sorted x l :
  Sorted byPing l -> Sorted byPing (insertByPing x l).
Proof.
  induction 1 as [|y l Hsorted IH Hhd]; cbn [insertByPing].
  - repeat constructor.
  - destruct (snd x <=? snd y) eqn:Hle.
    + apply Z.leb_le in Hle. repeat constructor; assumption.
    + apply Z.leb_gt in Hle. constructor; [exact IH|].
      apply insertByPing_hd; [exact Hhd | unfold byPing; lia].
Qed.

Lemma sortByPing_perm l : Permutation (sortByPing l) l.
Proof.
  induction l as [|x l IH]; [reflexivity|].
  unfold sortByPing in *. cbn [fold_right].
  rewrite insertByPing_perm. constructor. exact IH.
Qed.

Lemma sortByPing_sorted l : Sorted byPing (sortByPing l).
Proof.
  induction l as [|x l IH]; [constructor|].
  unfold sortByPing in *. cbn [fold_right].
  apply insertByPing_sorted. exact IH.
Qed.

Lemma reachable_In s ping samples :
  In (s, ping) (reachable samples) <-> In (s, Some ping) samples.
Proof.
  induction samples as [|[s' [p'|]] rest IH]; cbn [reachable In].
  - tauto.
  - rewrite IH. split; (intros [H|H]; [left; congruence | right; exact H]).
  - rewrite IH. split; [auto | intros [H|H]; [discriminate | exact H]].
Qed.

Lemma probeAll_In latency candidates s o :
  In (s, o) (probeAll latency candidates) <-> In s candidates /\ o = latency s.
Proof.
  unfold probeAll. rewrite in_map_iff. split.
  - intros (s' & Heq & Hin). inversion Heq; subst. auto.
  - intros [Hin ->]. exists s. auto.
Qed.

End Ranking.

(** C3. The ranked candidate list of the failover algorithm holds exactly
    the candidates that answered the latency probe, each with its latency,
    in ascending order of latency; a candidate without an answer appears
    nowhere in it.  For [[{A,50}, {B,null}, {C,10}]] the result is [[C, A]]. *)
Theorem getRankedServers_ascending_reachable_only :
  (forall (latency : Server -> option Z) (candidates : list Server),
     let ranked := NetworkMonitor.rankSamples
                     (NetworkMonitor.probeAll latency candidates) in
     NetworkMonitor.getRankedServers latency candidates = map fst ranked /\
     Sorted NetworkMonitor.byPing ranked /\
     Permutation ranked
       (NetworkMonitor.reachable (NetworkMonitor.probeAll latency candidates)) /\
     (forall s ping, In (s, ping) ranked <->
                     In s candidates /\ latency s = Some ping) /\
     (forall s, In s candidates -> latency s = None ->
                ~ In s (NetworkMonitor.getRankedServers latency candidates))) /\
  NetworkMonitor.rankSamples Sample.samples =
    [(Sample.serverC, 10); (Sample.serverA, 50)] /\
  map fst (NetworkMonitor.rankSamples Sample.samples) =
    [Sample.serverC; Sample.serverA] /\
  NetworkMonitor.getRankedServers Sample.latency
    [Sample.serverA; Sample.serverB; Sample.serverC] =
    [Sample.serverC; Sample.serverA].
Proof.
  split; [| repeat split; reflexivity].
  intros latency candidates ranked.
  assert (Hin : forall s ping, In (s, ping) ranked <->
                  In s candidates /\ latency s = Some ping).
  { intros s ping. unfold ranked, NetworkMonitor.rankSamples.
    split.
    - intros H. apply (Permutation_in _ (sortByPing_perm _)) in H.
      apply reachable_In, probeAll_In in H. intuition congruence.
    - intros [Hc Hl].
      apply (Permutation_in _ (Permutation_sym (sortByPing_perm _))).
      apply reachable_In, probeAll_In. auto. }
  split; [reflexivity|].
  split; [apply sortByPing_sorted|].
  split; [apply sortByPing_perm|].
  split; [exact Hin|].
  intros s Hc Hnone Habs.
  unfold NetworkMonitor.getRankedServers in Habs. fold ranked in Habs.
  apply in_map_iff in Habs. destruct Habs as ([s' ping] & Hfst & Hranked).
  cbn in Hfst. subst s'. apply Hin in Hranked. destruct Hranked as [_ Hsome].
  congruence.
Qed.

Example connected_sample :
  Main.isConnected Sample.connected = true /\
  Main.xrayProcess Sample.connected = Some 0%nat /\
  Main.running Sample.connected = [0%nat] /\
  Main.systemProxy Sample.connected = true /\
  Main.monitor Sample.connected = Some "203.0.113.7" /\
  Main.trace Sample.connected =
    [Main.EvStopMonitoring; Main.EvWriteConfig "A"; Main.EvSpawn 0;
     Main.EvConfigureProxy true; Main.EvConnected true; Main.EvUpdateTray true;
     Main.EvSend "vpn:connected"; Main.EvStartMonitoring "203.0.113.7"].
Proof. repeat split; reflexivity. Qed.

(** ** Symbolic execution of the main process *)

(** Unfold the effect combinators and the primitives on a world given by its
    fields; the list and string operations stay folded. *)
Ltac exec :=
  cbv [Main.connectVPN Main.connectVPN_launch Main.connectVPN_establish
       Main.connectVPN_catch Main.connectVPN_until_await Main.disconnectVPN
       Main.xrayProcess_onClose Main.processExited Main.nextAttempt
       Main.updateServerCountryInfo Main.spawn Main.try_catch Main.try_finally
       Main.bind Main.get Main.ret Main.throw Main.kill Main.configureProxy
       Main.assign_isConnected Main.stopMonitoring Main.startMonitoring
       Main.updateTray Main.send Main.emit Main.modify
       Main.sessionFailedServers_push Main.serverManager_getActiveServerId
       Main.serverManager_getServers Main.handleConnectionFailure
       Main.failoverEpisode Main.failoverAttempt
       Main.set_xrayProcess Main.set_isConnected Main.set_connectionStartTime
       Main.set_monitor Main.set_systemProxy Main.set_running Main.set_trace
       Main.set_spawned Main.set_attempts Main.set_lastConnectedIP
       Main.set_sessionFailedServers Main.set_isAutoFailoverInProgress
       Main.set_store
       Main.mainWindow Main.tray Main.xrayProcess Main.isConnected
       Main.connectionStartTime Main.serversData Main.autoReconnectEnabled
       Main.isAutoFailoverInProgress Main.lastConnectedIP
       Main.sessionFailedServers Main.store Main.monitor Main.systemProxy
       Main.running Main.spawned Main.attempts Main.trace
       Main.success Main.message
       Observe.tornDown Observe.teardownEffects Observe.Disconnected
       Observe.silenced Observe.reported
       negb orb andb fst snd].

(** Split on the innermost scrutinee that blocks the execution. *)
Ltac split_case :=
  match goal with
  | |- context [match ?x with _ => _ end] =>
      lazymatch x with
      | context [match _ with _ => _ end] => fail
      | _ => destruct x eqn:?
      end
  end.

Ltac split_cases := repeat (split_case; cbv beta iota).

Ltac destruct_world w :=
  destruct w as [mw tr xp ic cst sd are afp lip sfs st mo sp ru np at_ trc].

Lemma skipn_length_app {A} (l r : list A) : skipn (length l) (l ++ r) = r.
Proof. induction l as [|x l IH]; [reflexivity | exact IH]. Qed.

Lemma skipn_length_self {A} (l : list A) : skipn (length l) l = [].
Proof. induction l as [|x l IH]; [reflexivity | exact IH]. Qed.


(** ** Disconnecting *)

Section Disconnect.
Import Main Observe.

(** Not connected: [disconnectVPN] returns at once and touches nothing. *)
Lemma disconnectVPN_not_connected silent w :
  isConnected w = false ->
  disconnectVPN silent w = (Normal (mkResult true "Not connected"), w).
Proof.
  intros H. unfold disconnectVPN, try_catch, bind, get. rewrite H. reflexivity.
Qed.

(** Connected: the teardown runs to its end. *)
Lemma disconnectVPN_connected silent w :
  isConnected w = true ->
  disconnectVPN silent w =
    (Normal (mkResult true "Disconnected successfully"), tornDown w).
Proof.
  destruct_world w. cbn [isConnected]. intros ->.
  destruct xp as [p|], tr, mw; exec; rewrite <- ?app_assoc; reflexivity.
Qed.


(** [disconnectVPN] never throws and always reports success. *)
Lemma disconnectVPN_succeeds silent w :
  succeeded (fst (disconnectVPN silent w)) /\
  isConnected (snd (disconnectVPN silent w)) = false.
Proof.
  destruct (isConnected w) eqn:Hc.
  - rewrite (disconnectVPN_connected silent w Hc).
    split; [eexists; split; reflexivity | reflexivity].
  - rewrite (disconnectVPN_not_connected silent w Hc).
    split; [eexists; split; reflexivity | exact Hc].
Qed.

(** Both cases at once. *)
Lemma disconnectVPN_silences silent w :
  exists r, disconnectVPN silent w = (Normal r, silenced w).
Proof.
  unfold silenced. destruct (isConnected w) eqn:Hc.
  - rewrite (disconnectVPN_connected silent w Hc). eauto.
  - rewrite (disconnectVPN_not_connected silent w Hc). eauto.
Qed.

End Disconnect.

(** C2. [disconnectVPN] is idempotent.  From every state, two calls in a
    row both report success and both leave the supervisor Disconnected, and
    the second call changes nothing: the world after it is the world before
    it, so it adds no effect to the trace (no kill, no proxy command). *)
Theorem disconnectVPN_idempotent :
  forall (silent1 silent2 : bool) (w : Main.World),
    let first := Main.disconnectVPN silent1 w in
    let second := Main.disconnectVPN silent2 (snd first) in
    Observe.succeeded (fst first) /\
    Observe.Disconnected (snd first) /\
    Observe.succeeded (fst second) /\
    Observe.Disconnected (snd second) /\
    snd second = snd first /\
    Observe.effectsSince (snd first) (snd second) = [].
Proof.
  intros silent1 silent2 w first second.
  destruct (disconnectVPN_succeeds silent1 w) as [Hok Hoff].
  fold first in Hok, Hoff.
  assert (Hsecond : second = (Main.Normal (Main.mkResult true "Not connected"), snd first))
    by (apply disconnectVPN_not_connected; exact Hoff).
  rewrite Hsecond. cbn [fst snd].
  repeat split; try assumption.
  - eexists; split; reflexivity.
  - apply skipn_length_self.
Qed.




Example disconnect_twice :
  let first := Main.disconnectVPN false Sample.connected in
  let second := Main.disconnectVPN false (snd first) in
  fst first = Main.Normal (Main.mkResult true "Disconnected successfully") /\
  fst second = Main.Normal (Main.mkResult true "Not connected") /\
  Main.running (snd first) = [] /\
  Main.trace (snd second) = Main.trace (snd first).
Proof. vm_compute. repeat split. Qed.

(** The tunnel of a connected supervisor dies: the supervisor ends
    Disconnected without any call from outside.  The same exit on an idle
    supervisor leaves no trace. *)
Example tunnel_crash :
  let crashed := snd (Main.processExited 0 Sample.connected) in
  Main.isConnected crashed = false /\
  Main.systemProxy crashed = false /\
  Main.monitor crashed = None /\
  Main.running crashed = [] /\
  Observe.effectsSince Sample.connected crashed =
    [Main.EvKill 0; Main.EvConfigureProxy false; Main.EvConnected false;
     Main.EvStopMonitoring; Main.EvUpdateTray false;
     Main.EvSend "vpn:status-change"; Main.EvSend "vpn:disconnected"] /\
  Main.trace (snd (Main.processExited 0 Sample.idle)) = [].
Proof. vm_compute. repeat split. Qed.

(** C8. When the tunnel process exits, its close handler looks at
    [isConnected]: if the supervisor is Connected it runs [disconnectVPN(true)]
    by itself and the supervisor ends Disconnected, with the proxy disabled,
    the monitor stopped and the handle dropped; if it is not Connected,
    nothing is triggered: no effect, no change beyond the process being gone. *)
Theorem process_exit_triggers_disconnect_only_when_connected :
  forall (p : Main.Pid) (w : Main.World),
    let run := Main.processExited p w in
    fst run = Main.Normal tt /\
    (Main.isConnected w = true ->
       Observe.Disconnected (snd run) /\
       Main.xrayProcess (snd run) = None /\
       Main.systemProxy (snd run) = false /\
       Main.monitor (snd run) = None /\
       ~ In p (Main.running (snd run)) /\
       In (Main.EvConfigureProxy false) (Observe.effectsSince w (snd run)) /\
       In (Main.EvConnected false) (Observe.effectsSince w (snd run))) /\
    (Main.isConnected w = false ->
       Observe.effectsSince w (snd run) = [] /\
       snd run = Main.set_running (remove Nat.eq_dec p (Main.running w)) w).
Proof.
  intros p w run. unfold run. destruct_world w.
  split; [| split].
  - destruct ic, xp, tr, mw; reflexivity.
  - cbn [Main.isConnected]. intros ->.
    assert (Hgone : forall q l, ~ In p (remove Nat.eq_dec q (remove Nat.eq_dec p l))).
    { intros q l Hin. apply in_remove in Hin. destruct Hin as [Hin _].
      exact (remove_In Nat.eq_dec l p Hin). }
    destruct xp, tr, mw; exec; unfold Observe.effectsSince; cbn [Main.trace];
      rewrite <- ?app_assoc, skipn_length_app;
      repeat split; try apply Hgone; try apply remove_In; cbn; auto 10.
  - cbn [Main.isConnected]. intros ->.
    split; [apply skipn_length_self | reflexivity].
Qed.


(** ** Connecting *)

Section Connect.
Import Main Observe.
Variable host : Host.

(** Already connected: [connectVPN] answers "Already connected" and touches
    nothing. *)
Lemma connectVPN_already_connected isEmergencyReconnect w :
  isConnected w = true ->
  connectVPN host isEmergencyReconnect w =
    (Normal (mkResult false "Already connected"), w).
Proof.
  intros H. unfold connectVPN, bind, get. rewrite H. reflexivity.
Qed.

(** [connectVPN] never throws: every failure inside becomes a result. *)
Lemma connectVPN_returns isEmergencyReconnect w :
  exists r, fst (connectVPN host isEmergencyReconnect w) = Normal r.
Proof.
  destruct_world w. exec. split_cases; eexists; reflexivity.
Qed.

(** A successful connect leaves the supervisor Connected, a failed one
    leaves it Disconnected. *)
Lemma connectVPN_state isEmergencyReconnect w r w' :
  connectVPN host isEmergencyReconnect w = (Normal r, w') ->
  isConnected w = false ->
  isConnected w' = success r.
Proof.
  destruct_world w. exec. split_cases;
    intros H; inversion H; subst; clear H; intros Hc;
    try discriminate Hc; reflexivity.
Qed.

(** The suspended call resumes with the rest of the [try] block. *)
Lemma connectVPN_resumes isEmergencyReconnect w w1 :
  connectVPN_until_await host w = (Normal tt, w1) ->
  exists activeServerConfig,
    getActiveServer w = Some activeServerConfig /\
    connectVPN host isEmergencyReconnect w =
      try_catch
        (connectVPN_establish (attempt host (attempts w)) activeServerConfig
           isEmergencyReconnect)
        connectVPN_catch w1.
Proof.
  destruct_world w.
  unfold connectVPN_until_await, connectVPN.
  cbv [bind get ret throw stopMonitoring nextAttempt modify emit
       set_monitor set_trace set_attempts
       mainWindow tray xrayProcess isConnected connectionStartTime serversData
       autoReconnectEnabled isAutoFailoverInProgress lastConnectedIP
       sessionFailedServers store monitor systemProxy running spawned
       attempts trace].
  destruct ic; [discriminate|].
  destruct (getActiveServer _) as [srv|]; [|discriminate].
  intros H. exists srv. split; [reflexivity|].
  unfold try_catch at 1. rewrite H. reflexivity.
Qed.

(** A connect that gets as far as spawning the tunnel and then fails at the
    readiness wait or at the verification returns a failure, but its
    [catch] block finds [isConnected] still false, so [disconnectVPN(true)]
    returns at once: the process stays alive with its handle in
    [xrayProcess], nothing is killed, and a proxy setting already applied
    stays applied. *)
Lemma connectVPN_failure_after_spawn isEmergencyReconnect w activeServerConfig :
  let env := attempt host (attempts w) in
  let ready := ProxyWait.settled
                 (ProxyWait.waitForProxy (network env) (waitStart env)
                    10808 "127.0.0.1" None) in
  let run := connectVPN host isEmergencyReconnect w in
  isConnected w = false ->
  getActiveServer w = Some activeServerConfig ->
  configFault env = None ->
  xrayBinary env = true ->
  ready <> ProxyWait.Resolved \/ truthy (detectedIp env) = None ->
  failed (fst run) /\
  isConnected (snd run) = false /\
  xrayProcess (snd run) = Some (spawned w) /\
  running (snd run) = spawned w :: running w /\
  systemProxy (snd run) =
    (match ready with ProxyWait.Resolved => true | _ => systemProxy w end) /\
  effectsSince w (snd run) =
    ([EvStopMonitoring; EvWriteConfig (id activeServerConfig); EvSpawn (spawned w)]
     ++ match ready with
        | ProxyWait.Resolved => [EvConfigureProxy true]
        | _ => []
        end)%list.
Proof.
  intros env ready run. unfold run, ready, env. clear run ready env.
  destruct_world w. cbn [isConnected attempts spawned running systemProxy].
  intros -> Hsrv Hcfg Hbin Hfail.
  unfold effectsSince, failed.
  exec. rewrite Hsrv. cbv beta iota. rewrite Hcfg, Hbin. cbv beta iota.
  destruct (ProxyWait.settled _) eqn:Hready; cbv beta iota.
  - destruct Hfail as [Hfail|Hfail]; [congruence|].
    rewrite Hfail. cbv beta iota.
    rewrite <- ?app_assoc, skipn_length_app.
    repeat split. eexists; split; reflexivity.
  - rewrite <- ?app_assoc, skipn_length_app.
    repeat split. eexists; split; reflexivity.
  - rewrite <- ?app_assoc, skipn_length_app.
    repeat split. eexists; split; reflexivity.
Qed.

End Connect.

(** C1, on the code.  The tunnel never opens its port: [connectVPN] returns
    one failure result and the supervisor is Disconnected, but the spawned
    process 0 is still running with its handle kept, and no kill was issued.
    The tunnel opens its port but carries no traffic: the same, and the
    system proxy enabled during the attempt stays enabled. *)
Theorem connectVPN_failure_skips_rollback :
  let unready := Main.connectVPN (Sample.hostOf Sample.neverReady) false Sample.idle in
  let unverified := Main.connectVPN (Sample.hostOf Sample.noTraffic) false Sample.idle in
  fst unready =
    Main.Normal (Main.mkResult false
      "Failed to connect: Failed to establish proxy connection: Proxy connection timed out after 10000ms") /\
  Main.isConnected (snd unready) = false /\
  Main.xrayProcess (snd unready) = Some 0%nat /\
  Main.running (snd unready) = [0%nat] /\
  Main.trace (snd unready) =
    [Main.EvStopMonitoring; Main.EvWriteConfig "A"; Main.EvSpawn 0] /\
  fst unverified =
    Main.Normal (Main.mkResult false
      "Failed to connect: Could not verify connection. IP detection failed after starting proxy.") /\
  Main.isConnected (snd unverified) = false /\
  Main.xrayProcess (snd unverified) = Some 0%nat /\
  Main.running (snd unverified) = [0%nat] /\
  Main.systemProxy (snd unverified) = true /\
  Main.trace (snd unverified) =
    [Main.EvStopMonitoring; Main.EvWriteConfig "A"; Main.EvSpawn 0;
     Main.EvConfigureProxy true].
Proof. repeat split; reflexivity. Qed.

(** A failure after [isConnected] has been set is rolled back in full: the
    [catch] block's [disconnectVPN(true)] then does its work. *)
Example connectVPN_late_failure_rolls_back :
  let run := Main.connectVPN (Sample.hostOf Sample.lateFault) false Sample.idle in
  fst run = Main.Normal (Main.mkResult false "Failed to connect: ENOENT") /\
  Main.isConnected (snd run) = false /\
  Main.xrayProcess (snd run) = None /\
  Main.running (snd run) = [] /\
  Main.systemProxy (snd run) = false /\
  Main.trace (snd run) =
    [Main.EvStopMonitoring; Main.EvWriteConfig "A"; Main.EvSpawn 0;
     Main.EvConfigureProxy true; Main.EvConnected true; Main.EvUpdateTray true;
     Main.EvKill 0; Main.EvConfigureProxy false; Main.EvConnected false;
     Main.EvStopMonitoring; Main.EvUpdateTray false;
     Main.EvSend "vpn:status-change"; Main.EvSend "vpn:disconnected"].
Proof. vm_compute. repeat split. Qed.

(** C4. A connect that succeeds leaves the session's failed-server list
    empty when it was manual ([isEmergencyReconnect] false) and as it was
    when it was driven by the failover ([isEmergencyReconnect] true). *)
Theorem connectVPN_success_resets_session_only_when_manual :
  forall (host : Main.Host) (isEmergencyReconnect : bool)
         (w w' : Main.World) (r : Main.Result),
    Main.connectVPN host isEmergencyReconnect w = (Main.Normal r, w') ->
    Main.success r = true ->
    (isEmergencyReconnect = false -> Main.sessionFailedServers w' = []) /\
    (isEmergencyReconnect = true ->
       Main.sessionFailedServers w' = Main.sessionFailedServers w).
Proof.
  intros host isEm w w' r. destruct_world w. exec. split_cases;
    intros H; inversion H; subst; clear H; intros Hs;
    try discriminate Hs; split; intros Hm; try discriminate Hm; reflexivity.
Qed.

Lemma connectVPN_success_resets_session_only_when_manual_witness :
  Main.sessionFailedServers Sample.idleAfterFailover = ["B"] /\
  Main.sessionFailedServers
    (snd (Main.connectVPN (Sample.hostOf Sample.goodAttempt) false
            Sample.idleAfterFailover)) = [] /\
  Main.sessionFailedServers
    (snd (Main.connectVPN (Sample.hostOf Sample.goodAttempt) true
            Sample.idleAfterFailover)) = ["B"].
Proof.
  split; [reflexivity|]. split.
  - refine (proj1 (connectVPN_success_resets_session_only_when_manual
             (Sample.hostOf Sample.goodAttempt) false Sample.idleAfterFailover
             (snd (Main.connectVPN (Sample.hostOf Sample.goodAttempt) false
                     Sample.idleAfterFailover))
             (Main.mkResult true "Connected successfully") _ _) eq_refl);
      vm_compute; reflexivity.
  - refine (proj2 (connectVPN_success_resets_session_only_when_manual
             (Sample.hostOf Sample.goodAttempt) true Sample.idleAfterFailover
             (snd (Main.connectVPN (Sample.hostOf Sample.goodAttempt) true
                     Sample.idleAfterFailover))
             (Main.mkResult true "Connected successfully") _ _) eq_refl);
      vm_compute; reflexivity.
Defined.

(** C6, as the design document words it, fails in the main process, which has no
    Connecting state: a first [connectVPN] is suspended at its readiness
    wait (process 0 spawned, [isConnected] still false); a second
    [connectVPN] arriving then is not turned away: it spawns process 1,
    overwrites the handle and goes on to connect, leaving process 0
    running without a handle. *)
Lemma connectVPN_while_connecting_spawns_again :
  let host := Sample.hostOf Sample.goodAttempt in
  let suspended := Main.connectVPN_until_await host Sample.idle in
  let second := Main.connectVPN host false (snd suspended) in
  fst suspended = Main.Normal tt /\
  Main.isConnected (snd suspended) = false /\
  Main.xrayProcess (snd suspended) = Some 0%nat /\
  Main.running (snd suspended) = [0%nat] /\
  fst second = Main.Normal (Main.mkResult true "Connected successfully") /\
  Main.xrayProcess (snd second) = Some 1%nat /\
  Main.running (snd second) = [1%nat; 0%nat] /\
  In (Main.EvSpawn 1) (Observe.effectsSince (snd suspended) (snd second)) /\
  snd second <> snd suspended.
Proof.
  repeat split; try reflexivity.
  - vm_compute. auto 10.
  - intros H. apply (f_equal Main.spawned) in H. vm_compute in H. discriminate.
Qed.

(** C6, as the code has it.  [connectVPN] invoked while Connected answers
    "Already connected" and changes nothing (the world is the same, so no
    process is spawned).  The renderer's [connect] returns without calling
    the main process and without touching its state while its
    [isConnected] or [isConnecting] flag is set, and its [disconnect] does
    the same while [isDisconnecting] is set. *)
Theorem reentrancy_guards :
  (forall (host : Main.Host) (isEmergencyReconnect : bool) (w : Main.World),
     Main.isConnected w = true ->
     Main.connectVPN host isEmergencyReconnect w =
       (Main.Normal (Main.mkResult false "Already connected"), w)) /\
  (forall (dom : Renderer.Dom) (state : Renderer.State),
     Renderer.isConnected state = true \/ Renderer.isConnecting state = true ->
     Renderer.connect dom state = (state, [])) /\
  (forall (dom : Renderer.Dom) (state : Renderer.State),
     Renderer.isDisconnecting state = true ->
     Renderer.disconnect dom state = (state, [])).
Proof.
  split; [| split].
  - intros host isEm w H. apply connectVPN_already_connected. exact H.
  - intros dom state [H|H]; unfold Renderer.connect; rewrite H;
      rewrite ?orb_true_r; reflexivity.
  - intros dom state H. unfold Renderer.disconnect. rewrite H.
    rewrite orb_true_r. reflexivity.
Qed.

Example renderer_connect_while_connecting :
  Renderer.connect Sample.calmPage Sample.rendererConnecting =
    (Sample.rendererConnecting, []).
Proof. reflexivity. Qed.

(** ** Failover *)

Section Failover.
Import Main Observe.

Lemma keepsAuto_ret {A} (a : A) : keepsAuto (ret a).
Proof. intros w. reflexivity. Qed.

Lemma keepsAuto_throw {A} e : keepsAuto (@throw A e).
Proof. intros w. reflexivity. Qed.

Lemma keepsAuto_get : keepsAuto get.
Proof. intros w. reflexivity. Qed.

Lemma keepsAuto_modify f :
  (forall w, autoReconnectEnabled (f w) = autoReconnectEnabled w) ->
  keepsAuto (modify f).
Proof. intros H w. apply H. Qed.

Lemma keepsAuto_bind {A B} (m : Eff A) (k : A -> Eff B) :
  keepsAuto m -> (forall a, keepsAuto (k a)) -> keepsAuto (bind m k).
Proof.
  intros Hm Hk w. unfold bind. specialize (Hm w).
  destruct (m w) as [[a|e] w1]; cbn [snd] in *; [rewrite Hk|]; exact Hm.
Qed.

Lemma keepsAuto_try_catch {A} (m : Eff A) h :
  keepsAuto m -> (forall e, keepsAuto (h e)) -> keepsAuto (try_catch m h).
Proof.
  intros Hm Hh w. unfold try_catch. specialize (Hm w).
  destruct (m w) as [[a|e] w1]; cbn [snd] in *; [|rewrite Hh]; exact Hm.
Qed.

Lemma keepsAuto_try_finally {A} (m : Eff A) f :
  keepsAuto m -> keepsAuto f -> keepsAuto (try_finally m f).
Proof.
  intros Hm Hf w. unfold try_finally. specialize (Hm w).
  destruct (m w) as [c w1]. specialize (Hf w1).
  destruct (f w1) as [[u|e] w2]; cbn [snd] in *; congruence.
Qed.

Ltac keeps_step :=
  first
    [ assumption
    | match goal with H : forall _, keepsAuto _ |- _ => apply H end
    | apply keepsAuto_ret | apply keepsAuto_throw | apply keepsAuto_get
    | apply keepsAuto_modify; intros ?; reflexivity
    | apply keepsAuto_bind; [| intros ?]
    | apply keepsAuto_try_catch; [| intros ?]
    | apply keepsAuto_try_finally
    | match goal with
      | |- keepsAuto (match ?x with _ => _ end) => destruct x
      end ].

Ltac keeps :=
  unfold stopMonitoring, startMonitoring, emit, send, spawn, kill,
    assign_isConnected, configureProxy, updateTray, sessionFailedServers_push,
    serverManager_getActiveServerId, serverManager_getServers,
    serverManager_setActiveServer, updateServerCountryInfo, nextAttempt;
  repeat keeps_step.

Lemma keepsAuto_disconnectVPN silent : keepsAuto (disconnectVPN silent).
Proof. unfold disconnectVPN. keeps. Qed.

Variable host : Host.

Lemma keepsAuto_connectVPN isEmergencyReconnect :
  keepsAuto (connectVPN host isEmergencyReconnect).
Proof.
  pose proof keepsAuto_disconnectVPN.
  unfold connectVPN, connectVPN_launch, connectVPN_establish, connectVPN_catch.
  keeps.
Qed.

Lemma keepsAuto_failoverLoop rankedServers : keepsAuto (failoverLoop host rankedServers).
Proof.
  pose proof keepsAuto_disconnectVPN. pose proof keepsAuto_connectVPN.
  induction rankedServers as [|nextServer rest IH]; cbn [failoverLoop]; keeps.
Qed.

Lemma keepsAuto_failoverEpisode : keepsAuto (failoverEpisode host).
Proof.
  pose proof keepsAuto_disconnectVPN. pose proof keepsAuto_failoverLoop.
  unfold failoverEpisode, failoverAttempt, getRankedServers. keeps.
Qed.

(** While an episode is in progress, or with auto-reconnect switched off, a
    failure report is dropped. *)
Lemma handleConnectionFailure_guarded w :
  autoReconnectEnabled w = false \/ isAutoFailoverInProgress w = true ->
  handleConnectionFailure host w = (Normal tt, w).
Proof.
  intros H. unfold handleConnectionFailure, bind, get.
  destruct H as [-> | ->]; rewrite ?orb_true_r; reflexivity.
Qed.

(** No candidate answers the probe: the ranked list is empty. *)
Lemma getRankedServers_none latency candidates :
  (forall s, In s candidates -> latency s = None) ->
  NetworkMonitor.getRankedServers latency candidates = [].
Proof.
  intros H. unfold NetworkMonitor.getRankedServers, NetworkMonitor.rankSamples.
  replace (NetworkMonitor.reachable (NetworkMonitor.probeAll latency candidates))
    with (@nil (Server * Z)); [reflexivity|].
  induction candidates as [|c cs IH]; [reflexivity|].
  cbn. rewrite (H c) by (left; reflexivity).
  apply IH. intros s Hs. apply H. right. exact Hs.
Qed.

Lemma bind_normal {A B} (m : Eff A) (k : A -> Eff B) w a w' :
  m w = (Normal a, w') -> bind m k w = k a w'.
Proof. intros H. unfold bind. rewrite H. reflexivity. Qed.

(** The episode up to the choice of candidates: the report is recorded, the
    supervisor silently disconnected, and the candidates are the known
    servers minus the session. *)
Lemma failoverEpisode_start w :
  failoverEpisode host w =
    failoverAttempt host (candidatesOf w) (silenced (reported w)).
Proof.
  unfold failoverEpisode.
  rewrite (bind_normal _ _ w (activeServer (store w)) w) by reflexivity.
  rewrite (bind_normal _ _ w tt (reported w)).
  2:{ unfold reported, failedAfterReport.
      destruct (truthy (activeServer (store w))); [reflexivity|].
      destruct w; reflexivity. }
  destruct (disconnectVPN_silences true (reported w)) as [r Hr].
  rewrite (bind_normal _ _ _ _ _ Hr).
  rewrite (bind_normal _ _ _ (store (silenced (reported w))) (silenced (reported w)))
    by reflexivity.
  rewrite (bind_normal _ _ _ (silenced (reported w)) (silenced (reported w)))
    by reflexivity.
  f_equal. unfold candidatesOf, silenced, reported.
  destruct (isConnected _); reflexivity.
Qed.

(** A guarded report runs the episode between raising and lowering the
    in-progress flag. *)
Lemma handleConnectionFailure_runs w :
  autoReconnectEnabled w = true ->
  isAutoFailoverInProgress w = false ->
  handleConnectionFailure host w =
    try_finally
      (try_catch (failoverEpisode host) (fun _ => ret tt))
      (modify (set_isAutoFailoverInProgress false))
      (set_isAutoFailoverInProgress true w).
Proof.
  intros Hauto Hflag.
  unfold handleConnectionFailure, bind, get, modify.
  rewrite Hauto, Hflag. reflexivity.
Qed.

End Failover.

(** C10. A failure report that passes the entry guard always comes back
    normally, whatever happens inside (success, exhaustion, an error thrown
    by a collaborator), and when it does the in-progress flag is false
    again; the auto-reconnect setting is untouched, so the next failure
    report is not dropped by the guard: it raises the flag and runs a new
    episode. *)
Theorem handleConnectionFailure_resets_in_progress_flag :
  forall (host : Main.Host) (w : Main.World),
    Main.autoReconnectEnabled w = true ->
    Main.isAutoFailoverInProgress w = false ->
    let run := Main.handleConnectionFailure host w in
    fst run = Main.Normal tt /\
    Main.isAutoFailoverInProgress (snd run) = false /\
    Main.autoReconnectEnabled (snd run) = true /\
    forall later : Main.Host,
      Main.handleConnectionFailure later (snd run) =
        Main.try_finally
          (Main.try_catch (Main.failoverEpisode later) (fun _ => Main.ret tt))
          (Main.modify (Main.set_isAutoFailoverInProgress false))
          (Main.set_isAutoFailoverInProgress true (snd run)).
Proof.
  intros host w Hauto Hflag run.
  assert (Hrun : run = _) by (apply handleConnectionFailure_runs; assumption).
  assert (Hdone : fst run = Main.Normal tt /\
                  Main.isAutoFailoverInProgress (snd run) = false /\
                  Main.autoReconnectEnabled (snd run) = true).
  { rewrite Hrun. clear Hrun run.
    unfold Main.try_finally, Main.try_catch, Main.modify.
    pose proof (keepsAuto_failoverEpisode host
                  (Main.set_isAutoFailoverInProgress true w)) as Hkeep.
    cbn [Main.autoReconnectEnabled Main.set_isAutoFailoverInProgress] in Hkeep.
    destruct (Main.failoverEpisode host _) as [[[]|e] w1];
      cbn [snd] in Hkeep; cbn; repeat split; congruence. }
  destruct Hdone as (Hnormal & Hdown & Hon).
  repeat split; try assumption.
  intros later. apply handleConnectionFailure_runs; assumption.
Qed.

Lemma handleConnectionFailure_resets_in_progress_flag_witness :
  Main.isAutoFailoverInProgress
    (snd (Main.handleConnectionFailure (Sample.hostOf Sample.goodAttempt)
            Sample.connected)) = false /\
  Main.isAutoFailoverInProgress
    (snd (Main.handleConnectionFailure Sample.deafHost Sample.connected)) = false /\
  Main.isAutoFailoverInProgress
    (snd (Main.handleConnectionFailure Sample.faultyHost Sample.connected)) = false.
Proof.
  split; [| split].
  - exact (proj1 (proj2 (handleConnectionFailure_resets_in_progress_flag
                           (Sample.hostOf Sample.goodAttempt) Sample.connected
                           eq_refl eq_refl))).
  - exact (proj1 (proj2 (handleConnectionFailure_resets_in_progress_flag
                           Sample.deafHost Sample.connected eq_refl eq_refl))).
  - exact (proj1 (proj2 (handleConnectionFailure_resets_in_progress_flag
                           Sample.faultyHost Sample.connected eq_refl eq_refl))).
Defined.

(** C5, as the code has it.  A failure report that passes the guard adds
    the active server to the session and disconnects silently.  If no
    candidate is left, the episode clears the session and stops.  If
    candidates are left but none answers the latency probe, it stops as
    well, and the session keeps what it held.  In both cases no candidate
    is made active, no connection is attempted and no process is spawned:
    the only effects are those of the silent disconnect. *)
Theorem failover_stops_without_reachable_candidate :
  forall (host : Main.Host) (w : Main.World),
    Main.autoReconnectEnabled w = true ->
    Main.isAutoFailoverInProgress w = false ->
    let run := Main.handleConnectionFailure host w in
    let stopped :=
      fst run = Main.Normal tt /\
      Main.attempts (snd run) = Main.attempts w /\
      Main.spawned (snd run) = Main.spawned w /\
      Main.store (snd run) = Main.store w /\
      Observe.Disconnected (snd run) /\
      Main.isAutoFailoverInProgress (snd run) = false /\
      Observe.effectsSince w (snd run) =
        (if Main.isConnected w then Observe.teardownEffects w else []) in
    (Observe.candidatesOf w = [] ->
       stopped /\ Main.sessionFailedServers (snd run) = []) /\
    (Observe.candidatesOf w <> [] ->
     Main.rankingFault host = None ->
     (forall s, In s (Observe.candidatesOf w) -> Main.latency host s = None) ->
       stopped /\
       Main.sessionFailedServers (snd run) = Observe.failedAfterReport w).
Proof.
  intros host w Hauto Hflag run stopped. unfold stopped, run. clear stopped run.
  rewrite (handleConnectionFailure_runs host w Hauto Hflag).
  unfold Main.try_finally, Main.try_catch.
  rewrite failoverEpisode_start.
  assert (Hsame : Observe.candidatesOf (Main.set_isAutoFailoverInProgress true w)
                  = Observe.candidatesOf w) by reflexivity.
  rewrite Hsame. clear Hsame.
  assert (Heffects :
            forall w',
              Main.trace w' =
                Main.trace (Observe.silenced
                  (Observe.reported (Main.set_isAutoFailoverInProgress true w))) ->
              Observe.effectsSince w w' =
                (if Main.isConnected w then Observe.teardownEffects w else [])).
  { intros w' Hw'. unfold Observe.effectsSince. rewrite Hw'.
    destruct_world w. cbn [Main.isConnected Main.trace].
    destruct ic; cbn; [apply skipn_length_app | apply skipn_length_self]. }
  split.
  - intros Hcand. rewrite Hcand.
    unfold Main.failoverAttempt. cbn [length Nat.eqb].
    cbn [Main.modify fst snd].
    erewrite Heffects by reflexivity.
    destruct_world w. destruct ic; repeat split.
  - intros Hcand Hfault Hdeaf.
    apply getRankedServers_none in Hdeaf.
    unfold Main.failoverAttempt, Main.getRankedServers.
    rewrite Hfault, Hdeaf.
    destruct (Observe.candidatesOf w) as [|c cs] eqn:Hc; [congruence|].
    cbn [length Nat.eqb Main.bind Main.ret Main.modify fst snd].
    erewrite Heffects by reflexivity.
    unfold Observe.failedAfterReport.
    destruct_world w.
    destruct ic, (truthy (activeServer st)); repeat split.
Qed.

Lemma failover_stops_without_reachable_candidate_witness :
  Main.sessionFailedServers
    (snd (Main.handleConnectionFailure (Sample.hostOf Sample.goodAttempt)
            Sample.lastResort)) = [] /\
  Main.sessionFailedServers
    (snd (Main.handleConnectionFailure Sample.deafHost Sample.connected)) = ["A"].
Proof.
  split.
  - refine (proj2 (proj1 (failover_stops_without_reachable_candidate
                            (Sample.hostOf Sample.goodAttempt) Sample.lastResort
                            _ _) _)); vm_compute; reflexivity.
  - refine (proj2 (proj2 (failover_stops_without_reachable_candidate
                            Sample.deafHost Sample.connected _ _) _ _ _)).
    + vm_compute; reflexivity.
    + vm_compute; reflexivity.
    + vm_compute; discriminate.
    + reflexivity.
    + intros s _. reflexivity.
Defined.

(** C5, as the design document words it, fails: when candidates are left but none
    answers the probe, the episode does not end as in the empty-candidate
    case.  With every server failed the session ends empty; with B and C
    left and nobody answering, the session still holds A. *)
Lemma failover_unanswered_probe_keeps_session :
  let exhausted :=
    snd (Main.handleConnectionFailure (Sample.hostOf Sample.goodAttempt)
           Sample.lastResort) in
  let unanswered :=
    snd (Main.handleConnectionFailure Sample.deafHost Sample.connected) in
  Observe.candidatesOf Sample.lastResort = [] /\
  Observe.candidatesOf Sample.connected = [Sample.serverB; Sample.serverC] /\
  Main.latency Sample.deafHost Sample.serverB = None /\
  Main.latency Sample.deafHost Sample.serverC = None /\
  Main.sessionFailedServers exhausted = [] /\
  Main.sessionFailedServers unanswered = ["A"] /\
  Main.sessionFailedServers unanswered <> Main.sessionFailedServers exhausted.
Proof.
  repeat split; try reflexivity.
  vm_compute. discriminate.
Qed.

(** A whole episode: A fails; C (20 ms) is tried before B (80 ms); the
    attempt on C fails, the one on B goes through.  A and C are in the
    session, B is the active server of the store, and the flag is down. *)
Example failover_tries_ranked_candidates_in_turn :
  let after := snd (Main.handleConnectionFailure Sample.secondChoiceHost
                      Sample.connected) in
  Main.isConnected after = true /\
  Main.sessionFailedServers after = ["A"; "C"] /\
  activeServer (Main.store after) = Some "B" /\
  Main.attempts after = 3%nat /\
  Main.isAutoFailoverInProgress after = false /\
  Main.monitor after = Some "203.0.113.7".
Proof. repeat split; reflexivity. Qed.

(** The renderer's sort keeps the unreachable server, at the end. *)
Example renderer_sort_keeps_unreachable :
  Renderer.sortServersWithPings Sample.samples =
    [(Sample.serverC, Some 10); (Sample.serverA, Some 50); (Sample.serverB, None)].
Proof. reflexivity. Qed.

(* ================================================================== *)
(** * Further properties of the code *)

(** ** Readiness wait: other timeouts *)

(** X1. The bounds of the time-out parameter.  With a negative time-out
    [waitForProxy] rejects at once, before opening any socket.  With a
    time-out [t >= 0] it always opens at least one socket, opens at most
    [t / 200 + 1] of them, and settles. *)
Theorem waitForProxy_timeout_bounds :
  forall (network : Z -> string -> nat -> ProxyWait.SocketOutcome)
         (startTime port : Z) (host : string) (t : Z),
    let run := ProxyWait.waitForProxy network startTime port host (Some t) in
    (t < 0 ->
       run = ProxyWait.mkWaitRun
               (ProxyWait.Rejected (ProxyWait.timeoutMessage t)) startTime 0) /\
    (0 <= t ->
       (1 <= ProxyWait.socketsOpened run)%nat /\
       Z.of_nat (ProxyWait.socketsOpened run) <= t / 200 + 1 /\
       ProxyWait.settled run <> ProxyWait.Pending).
Proof.
  intros network startTime port host t run. unfold run. clear run.
  unfold ProxyWait.waitForProxy, ProxyWait.maxEntries, ProxyWait.retryDelay.
  replace (Z.to_nat (t / 200) + 2)%nat with (S (Z.to_nat (t / 200) + 1)) by lia.
  split.
  - intros Hneg. cbn [ProxyWait.tryConnect].
    replace (startTime - startTime >? t) with true; [reflexivity|].
    symmetry. rewrite Z.gtb_ltb. apply Z.ltb_lt. lia.
  - intros Hpos.
    pose proof (Z.div_pos t 200 Hpos ltac:(lia)) as Hq.
    pose proof (Z.mul_succ_div_gt t 200 ltac:(lia)) as Hgt.
    destruct (tryConnect_run (network port host) startTime t
                (Z.to_nat (t / 200) + 1) startTime 0)
      as (k & _ & Hbefore & Hend).
    + unfold ProxyWait.retryDelay. lia.
    + reflexivity.
    + assert (Hk : forall j, (j < k)%nat -> Z.of_nat j <= t / 200).
      { intros j Hj. destruct (Hbefore j ltac:(lia)) as [Hin _].
        pose proof (openedAt_lower (network port host) startTime j) as Hlow.
        unfold ProxyWait.retryDelay in Hlow.
        apply Z.div_le_lower_bound; lia. }
      destruct Hend as [(d & Hacc & Hin & ->) | (Hout & ->)];
        cbn [ProxyWait.socketsOpened ProxyWait.settled].
      * pose proof (openedAt_lower (network port host) startTime k) as Hlow.
        unfold ProxyWait.retryDelay in Hlow.
        assert (Z.of_nat k <= t / 200) by (apply Z.div_le_lower_bound; lia).
        repeat split; [lia | lia | discriminate].
      * destruct k as [|k]; [cbn [ProxyWait.openedAt] in Hout; lia|].
        specialize (Hk k ltac:(lia)).
        repeat split; [lia | lia | discriminate].
Qed.

(** X2. How late the default wait can settle: when no socket takes longer
    than [longest] ms to answer, the promise settles no later than
    10000 + [longest] + 200 ms after the start. *)
Theorem waitForProxy_settles_by :
  forall (network : Z -> string -> nat -> ProxyWait.SocketOutcome)
         (startTime port : Z) (host : string) (longest : nat),
    (forall n, (ProxyWait.duration (network port host n) <= longest)%nat) ->
    ProxyWait.settledAt (ProxyWait.waitForProxy network startTime port host None)
      - startTime <= 10000 + Z.of_nat longest + 200.
Proof.
  intros network startTime port host longest Hlong.
  destruct (tryConnect_run (network port host) startTime 10000 51 startTime 0)
    as (k & _ & Hbefore & Hend).
  - unfold ProxyWait.retryDelay. lia.
  - reflexivity.
  - change (ProxyWait.waitForProxy network startTime port host None)
      with (ProxyWait.tryConnect 52 (network port host) startTime 10000 startTime 0).
    destruct Hend as [(d & Hacc & Hin & ->) | (Hout & ->)]; cbn [ProxyWait.settledAt].
    + specialize (Hlong k). rewrite Hacc in Hlong. cbn in Hlong. lia.
    + destruct k as [|k]; cbn [ProxyWait.openedAt]; [lia|].
      destruct (Hbefore k ltac:(lia)) as [Hin _].
      specialize (Hlong k). unfold ProxyWait.retryDelay. lia.
Qed.

Lemma waitForProxy_settles_by_witness :
  ProxyWait.settledAt
    (ProxyWait.waitForProxy Sample.deadPort 1000 10808 "127.0.0.1" None) - 1000
    <= 10000 + Z.of_nat 3 + 200.
Proof.
  apply (waitForProxy_settles_by Sample.deadPort 1000 10808 "127.0.0.1" 3).
  intros n. cbn. lia.
Defined.

(** ** Connecting: edges and composition *)

Section ConnectMore.
Import Main Observe.
Variable host : Host.

(** What a run of [connectVPN] with the failover flag set leaves alone, and
    what it may change. *)
Lemma connectVPN_emergency_frame w r w' :
  connectVPN host true w = (Normal r, w') ->
  isConnected w = false ->
  isConnected w' = success r /\
  sessionFailedServers w' = sessionFailedServers w /\
  store w' = store w /\
  serversData w' = serversData w /\
  (attempts w' <= S (attempts w))%nat.
Proof.
  destruct_world w. exec. split_cases;
    intros H; inversion H; subst; clear H; intros Hc;
    try discriminate Hc; repeat split; lia.
Qed.

End ConnectMore.

(** X3. No usable active server.  When the supervisor is not connected and
    the active pointer is null, empty, or names no server of the list
    (a dangling pointer), [connectVPN] answers "No active server selected"
    and leaves the world exactly as it was: no monitor is stopped, no
    process is spawned. *)
Theorem connectVPN_without_active_server :
  forall (host : Main.Host) (isEmergencyReconnect : bool) (w : Main.World),
    Main.isConnected w = false ->
    truthy (activeServer (Main.serversData w)) = None \/
    (exists a, activeServer (Main.serversData w) = Some a /\
               forall s, In s (servers (Main.serversData w)) -> id s <> a) ->
    Main.connectVPN host isEmergencyReconnect w =
      (Main.Normal (Main.mkResult false "No active server selected"), w).
Proof.
  intros host isEm w Hc Hno.
  assert (Hnone : Main.getActiveServer w = None).
  { unfold Main.getActiveServer. destruct Hno as [-> | (a & Ha & Hdangling)].
    - reflexivity.
    - rewrite Ha. unfold truthy. destruct (String.eqb a ""); [reflexivity|].
      unfold find_by_id.
      destruct (find _ _) as [s|] eqn:Hfind; [|reflexivity].
      apply find_some in Hfind. destruct Hfind as [Hin Heq].
      apply String.eqb_eq in Heq. exfalso. exact (Hdangling s Hin Heq). }
  unfold Main.connectVPN, Main.bind, Main.get. rewrite Hc, Hnone. reflexivity.
Qed.

Lemma connectVPN_without_active_server_witness :
  let orphaned :=
    Main.mkWorld true true None false None
      (mkServersData [Sample.serverA; Sample.serverB] (Some "Z"))
      true false None [] Sample.catalogue None false [] 0 0 [] in
  Main.connectVPN (Sample.hostOf Sample.goodAttempt) false orphaned =
    (Main.Normal (Main.mkResult false "No active server selected"), orphaned).
Proof.
  apply connectVPN_without_active_server.
  - reflexivity.
  - right. exists "Z". split; [reflexivity|].
    intros s [<- | [<- | []]]; discriminate.
Defined.

(** X4. What a successful connect establishes.  Whenever [connectVPN]
    reports success, the supervisor was not connected before and is
    connected after; the handle is that of the process just spawned, which
    is running; [configureProxy(true)] has been called and
    [configureProxy(false)] has not (the result of the call is not looked
    at, so nothing is said of the proxy of the host); the address recorded
    is the one the verification observed; and the network monitor watches
    that address exactly when auto-failover is enabled (otherwise none
    runs). *)
Theorem connectVPN_success_establishes :
  forall (host : Main.Host) (isEmergencyReconnect : bool)
         (w w' : Main.World) (r : Main.Result),
    Main.connectVPN host isEmergencyReconnect w = (Main.Normal r, w') ->
    Main.success r = true ->
    let env := Main.attempt host (Main.attempts w) in
    Main.isConnected w = false /\
    Main.isConnected w' = true /\
    Main.xrayProcess w' = Some (Main.spawned w) /\
    Main.running w' = Main.spawned w :: Main.running w /\
    In (Main.EvConfigureProxy true) (Observe.effectsSince w w') /\
    ~ In (Main.EvConfigureProxy false) (Observe.effectsSince w w') /\
    Main.connectionStartTime w' = Some (Main.connectedAt env) /\
    exists ip,
      truthy (Main.detectedIp env) = Some ip /\
      Main.lastConnectedIP w' = Some ip /\
      Main.monitor w' =
        (if Main.autoReconnectEnabled w then Some ip else None).
Proof.
  intros host isEm w w' r. destruct_world w. exec. split_cases;
    intros H; inversion H; subst; clear H; intros Hs;
    try discriminate Hs;
    unfold Observe.effectsSince; cbn [Main.trace];
    rewrite <- ?app_assoc, skipn_length_app;
    (split; [reflexivity|]); (split; [reflexivity|]);
    (split; [reflexivity|]); (split; [reflexivity|]);
    (split; [cbn; tauto|]);
    (split; [cbn; intuition discriminate|]);
    (split; [reflexivity|]);
    eexists; repeat split; eassumption.
Qed.

Lemma connectVPN_success_establishes_witness :
  Main.isConnected Sample.connected = true /\
  Main.xrayProcess Sample.connected = Some 0%nat /\
  Main.monitor Sample.connected = Some "203.0.113.7".
Proof.
  pose proof (connectVPN_success_establishes
                (Sample.hostOf Sample.goodAttempt) false Sample.idle
                Sample.connected (Main.mkResult true "Connected successfully")
                ltac:(vm_compute; reflexivity) eq_refl) as H.
  cbv zeta in H.
  destruct H as (_ & Hc & Hp & _ & _ & _ & _ & ip & Hip & _ & Hm).
  vm_compute in Hip. injection Hip as <-.
  split; [exact Hc | split; [exact Hp | exact Hm]].
Defined.

(** X5. A failed attempt is not rolled back, for every world and host.  If
    the supervisor is not connected, an active server is selected, the
    configuration can be written and the binary is found, and then the
    readiness wait does not resolve or the verification observes no
    address, [connectVPN] returns a failure with the supervisor
    Disconnected, but the process it spawned is still running and still in
    [xrayProcess], its effects contain no kill and no proxy disable, and
    the system proxy is enabled if the attempt got as far as enabling it. *)
Theorem connectVPN_failed_attempt_keeps_tunnel :
  forall (host : Main.Host) (isEmergencyReconnect : bool) (w : Main.World)
         (activeServerConfig : Server),
    let env := Main.attempt host (Main.attempts w) in
    let ready := ProxyWait.settled
                   (ProxyWait.waitForProxy (Main.network env) (Main.waitStart env)
                      10808 "127.0.0.1" None) in
    let run := Main.connectVPN host isEmergencyReconnect w in
    Main.isConnected w = false ->
    Main.getActiveServer w = Some activeServerConfig ->
    Main.configFault env = None ->
    Main.xrayBinary env = true ->
    ready <> ProxyWait.Resolved \/ truthy (Main.detectedIp env) = None ->
    Observe.failed (fst run) /\
    Observe.Disconnected (snd run) /\
    Main.xrayProcess (snd run) = Some (Main.spawned w) /\
    In (Main.spawned w) (Main.running (snd run)) /\
    (forall p, ~ In (Main.EvKill p) (Observe.effectsSince w (snd run))) /\
    ~ In (Main.EvConfigureProxy false) (Observe.effectsSince w (snd run)) /\
    (ready = ProxyWait.Resolved -> Main.systemProxy (snd run) = true).
Proof.
  intros host isEm w srv env ready run Hc Hsrv Hcfg Hbin Hfail.
  destruct (connectVPN_failure_after_spawn host isEm w srv Hc Hsrv Hcfg Hbin Hfail)
    as (Hfailed & Hoff & Hhandle & Hrun & Hproxy & Heff).
  fold env in Hproxy, Heff. fold ready in Hproxy, Heff. fold run.
  fold run in Hfailed, Hoff, Hhandle, Hrun, Hproxy, Heff.
  repeat split; try assumption.
  - rewrite Hrun. left. reflexivity.
  - intros p. rewrite Heff. destruct ready; cbn; intuition discriminate.
  - rewrite Heff. destruct ready; cbn; intuition discriminate.
  - intros Hready. rewrite Hproxy, Hready. reflexivity.
Qed.

Lemma connectVPN_failed_attempt_keeps_tunnel_witness :
  let run := Main.connectVPN (Sample.hostOf Sample.noTraffic) true Sample.idle in
  Main.xrayProcess (snd run) = Some 0%nat /\
  In 0%nat (Main.running (snd run)) /\
  Main.systemProxy (snd run) = true.
Proof.
  pose proof (connectVPN_failed_attempt_keeps_tunnel
                (Sample.hostOf Sample.noTraffic) true Sample.idle Sample.serverA
                eq_refl eq_refl eq_refl eq_refl (or_intror eq_refl)) as H.
  cbv zeta in H. destruct H as (_ & _ & Hh & Hr & _ & _ & Hp).
  split; [exact Hh | split; [exact Hr | apply Hp; reflexivity]].
Defined.



(** ** The failover loop *)

Section FailoverLoop.
Import Main Observe.
Variable host : Host.

Lemma serverManager_setActiveServer_run sid w :
  exists ok w',
    serverManager_setActiveServer sid w = (Normal ok, w') /\
    isConnected w' = isConnected w /\
    sessionFailedServers w' = sessionFailedServers w /\
    attempts w' = attempts w /\
    servers (store w') = servers (store w) /\
    (find_by_id (servers (store w)) sid <> None ->
     activeServer (store w') = Some sid).
Proof.
  unfold serverManager_setActiveServer, bind, get.
  destruct (find_by_id (servers (store w)) sid) as [s|] eqn:Hfind.
  - eexists _, _. split; [reflexivity|]. repeat split.
  - eexists _, _. split; [reflexivity|]. repeat split. congruence.
Qed.

(** The loop splits the ranked list in two: the candidates that were tried
    and failed, in order, and the rest, which starts with the candidate
    whose attempt went through, if any did. *)
Lemma failoverLoop_outcome rankedServers :
  forall w,
    isConnected w = false ->
    exists connected w' tried rest,
      failoverLoop host rankedServers w = (Normal connected, w') /\
      rankedServers = (tried ++ rest)%list /\
      isConnected w' = connected /\
      sessionFailedServers w' = (sessionFailedServers w ++ map id tried)%list /\
      (attempts w' <= attempts w + length tried + (if connected then 1 else 0))%nat /\
      servers (store w') = servers (store w) /\
      match rest with
      | [] => connected = false
      | s :: _ =>
          connected = true /\
          (find_by_id (servers (store w)) (id s) <> None ->
           activeServer (store w') = Some (id s))
      end.
Proof.
  induction rankedServers as [|s ranked IH]; intros w Hoff.
  - exists false, w, [], []. cbn. rewrite app_nil_r.
    repeat split; try assumption; lia.
  - cbn [failoverLoop].
    destruct (serverManager_setActiveServer_run (id s) w)
      as (ok & wa & Hset & Hca & Hsa & Haa & Hsrv & Hact).
    rewrite (bind_normal _ _ _ _ _ Hset).
    destruct (connectVPN_returns host true wa) as [r Hr].
    destruct (connectVPN host true wa) as [c wb] eqn:Hconn.
    cbn [fst] in Hr. subst c.
    destruct (connectVPN_emergency_frame host wa r wb Hconn ltac:(congruence))
      as (Hcb & Hsb & Hstb & _ & Hab).
    rewrite (bind_normal _ _ _ _ _ Hconn).
    destruct (success r) eqn:Hok.
    + exists true,
        (if mainWindow wb
         then set_trace (trace wb ++ [EvSend "vpn:auto-failover"]) wb
         else wb), [], (s :: ranked).
      split.
      { unfold bind, get, send, emit, modify, ret.
        destruct (mainWindow wb); reflexivity. }
      cbn [app map length]. rewrite app_nil_r.
      destruct (mainWindow wb); cbn;
        (repeat split; [congruence | congruence | lia | congruence |]);
        intros Hin; rewrite Hstb; exact (Hact Hin).
    + assert (Hpush : sessionFailedServers_push (id s) wb =
                      (Normal tt, set_sessionFailedServers
                                    (sessionFailedServers wb ++ [id s]) wb))
        by reflexivity.
      rewrite (bind_normal _ _ _ _ _ Hpush).
      set (wc := set_sessionFailedServers _ wb).
      assert (Hcc : isConnected wc = false) by (cbn; congruence).
      rewrite (bind_normal _ _ _ _ _ (disconnectVPN_not_connected true wc Hcc)).
      destruct (IH wc Hcc)
        as (connected & w' & tried & rest & Hloop & Hsplit & Hc' & Hs' & Ha' & Hsrv' & Hrest).
      exists connected, w', (s :: tried), rest.
      split; [exact Hloop|].
      split; [cbn; congruence|].
      split; [exact Hc'|].
      split.
      { rewrite Hs'. cbn. rewrite Hsb, Hsa, <- app_assoc. reflexivity. }
      split.
      { cbn [length]. cbn in Ha'. lia. }
      assert (Hsame : servers (store wc) = servers (store w)).
      { cbn. rewrite Hstb. exact Hsrv. }
      split; [congruence|].
      destruct rest as [|t rest']; [exact Hrest|].
      destruct Hrest as [Htrue Hactive]. split; [exact Htrue|].
      rewrite Hsame in Hactive. exact Hactive.
Qed.

End FailoverLoop.


(** X8. First success ends the loop.  When the loop returns
    [connected = true], the ranked list splits into the candidates tried
    before, all of which are now in the session list in ranking order, the
    candidate whose attempt succeeded, which is not in it and is the active
    server of the store, and the candidates after it, which were not
    tried; the supervisor is Connected. *)
Theorem failoverLoop_first_success_ends_sequence :
  forall (host : Main.Host) (rankedServers : list Server) (w w' : Main.World),
    Main.isConnected w = false ->
    (forall s, In s rankedServers ->
               find_by_id (servers (Main.store w)) (id s) <> None) ->
    Main.failoverLoop host rankedServers w = (Main.Normal true, w') ->
    exists tried chosen untried,
      rankedServers = (tried ++ chosen :: untried)%list /\
      Main.sessionFailedServers w' =
        (Main.sessionFailedServers w ++ map id tried)%list /\
      activeServer (Main.store w') = Some (id chosen) /\
      Main.isConnected w' = true /\
      (Main.attempts w' <= Main.attempts w + length tried + 1)%nat.
Proof.
  intros host ranked w w' Hoff Hknown Hrun.
  destruct (failoverLoop_outcome host ranked w Hoff)
    as (connected & w1 & tried & rest & Hloop & Hsplit & Hc & Hs & Ha & _ & Hrest).
  rewrite Hrun in Hloop. injection Hloop as <- <-.
  destruct rest as [|s rest]; [discriminate|].
  destruct Hrest as [_ Hactive].
  exists tried, s, rest. repeat split; try assumption.
  apply Hactive, Hknown. rewrite Hsplit. apply in_or_app. right. left. reflexivity.
Qed.


Lemma failoverLoop_first_success_ends_sequence_witness :
  let w := Main.set_attempts 1 Sample.idle in
  let w' := snd (Main.failoverLoop Sample.secondChoiceHost
                   [Sample.serverC; Sample.serverB] w) in
  exists tried chosen untried,
    [Sample.serverC; Sample.serverB] = (tried ++ chosen :: untried)%list /\
    Main.sessionFailedServers w' =
      (Main.sessionFailedServers w ++ map id tried)%list /\
    activeServer (Main.store w') = Some (id chosen) /\
    Main.isConnected w' = true /\
    (Main.attempts w' <= Main.attempts w + length tried + 1)%nat.
Proof.
  apply (failoverLoop_first_success_ends_sequence Sample.secondChoiceHost).
  - reflexivity.
  - intros s [<- | [<- | []]]; vm_compute; discriminate.
  - vm_compute. reflexivity.
Defined.

(** ** Whole failover episodes *)

Section Episodes.
Import Main Observe.
Variable host : Host.

Lemma silenced_reported_frame w :
  isConnected (silenced (reported w)) = false /\
  sessionFailedServers (silenced (reported w)) = failedAfterReport w /\
  store (silenced (reported w)) = store w.
Proof.
  unfold silenced. destruct (isConnected (reported w)) eqn:Hc.
  - repeat split.
  - repeat split. exact Hc.
Qed.

Lemma getRankedServers_In latency candidates s :
  In s (NetworkMonitor.getRankedServers latency candidates) ->
  In s candidates /\ latency s <> None.
Proof.
  unfold NetworkMonitor.getRankedServers, NetworkMonitor.rankSamples.
  intros H. apply in_map_iff in H. destruct H as ([s' ping] & Hfst & Hin).
  cbn in Hfst. subst s'.
  apply (Permutation_in _ (sortByPing_perm _)) in Hin.
  apply reachable_In, probeAll_In in Hin. destruct Hin as [Hc Hl].
  split; [exact Hc | congruence].
Qed.

Lemma availableServers_In allServers failedIds s :
  In s (availableServers allServers failedIds) <->
  In s allServers /\ includes failedIds (id s) = false.
Proof.
  unfold availableServers. rewrite filter_In, negb_true_iff. reflexivity.
Qed.

Lemma find_by_id_In allServers s :
  In s allServers -> find_by_id allServers (id s) <> None.
Proof.
  intros Hin Hnone. unfold find_by_id in Hnone.
  apply (find_none _ _ Hnone) in Hin. rewrite String.eqb_refl in Hin.
  discriminate.
Qed.

Lemma getRankedServers_complete latency candidates s :
  In s candidates -> latency s <> None ->
  In s (NetworkMonitor.getRankedServers latency candidates).
Proof.
  intros Hc Hl. destruct (latency s) as [ping|] eqn:Hping; [|congruence].
  unfold NetworkMonitor.getRankedServers, NetworkMonitor.rankSamples.
  apply in_map_iff. exists (s, ping). split; [reflexivity|].
  apply (Permutation_in _ (Permutation_sym (sortByPing_perm _))).
  apply reachable_In, probeAll_In. auto.
Qed.

(** An episode that finds candidates either stops at a failing ranking call
    or runs the loop over the ranked candidates; then the flag is lowered. *)
Lemma handleConnectionFailure_cases w :
  autoReconnectEnabled w = true ->
  isAutoFailoverInProgress w = false ->
  candidatesOf w <> [] ->
  let w0 := silenced (reported (set_isAutoFailoverInProgress true w)) in
  (rankingFault host <> None /\
   handleConnectionFailure host w =
     (Normal tt, set_isAutoFailoverInProgress false w0)) \/
  (rankingFault host = None /\
   exists connected w1,
     failoverLoop host
       (NetworkMonitor.getRankedServers (latency host) (candidatesOf w)) w0 =
       (Normal connected, w1) /\
     handleConnectionFailure host w =
       (Normal tt, set_isAutoFailoverInProgress false w1)).
Proof.
  intros Hauto Hflag Hcand w0.
  rewrite (handleConnectionFailure_runs host w Hauto Hflag).
  unfold try_finally, try_catch. rewrite failoverEpisode_start.
  change (candidatesOf (set_isAutoFailoverInProgress true w)) with (candidatesOf w).
  fold w0.
  destruct (silenced_reported_frame (set_isAutoFailoverInProgress true w))
    as (Hoff & _ & _). fold w0 in Hoff.
  unfold failoverAttempt, Main.getRankedServers.
  destruct (candidatesOf w) as [|c cs] eqn:Hc; [congruence|].
  cbn [length Nat.eqb].
  destruct (rankingFault host) as [e|] eqn:Hfault.
  - left. split; [discriminate | reflexivity].
  - right. split; [reflexivity|].
    destruct (failoverLoop_outcome host
                (NetworkMonitor.getRankedServers (latency host) (c :: cs)) w0 Hoff)
      as (connected & w1 & tried & rest & Hloop & _).
    exists connected, w1. split; [exact Hloop|].
    destruct (NetworkMonitor.getRankedServers (latency host) (c :: cs))
      as [|r rs] eqn:Hranked.
    + cbn in Hloop. injection Hloop as <- <-. reflexivity.
    + cbn [bind ret length Nat.eqb]. unfold bind at 1.
      cbn [ret]. unfold bind. rewrite Hloop. reflexivity.
Qed.

(** An episode that finds no candidate clears the session and stops. *)
Lemma handleConnectionFailure_exhausted w :
  autoReconnectEnabled w = true ->
  isAutoFailoverInProgress w = false ->
  candidatesOf w = [] ->
  handleConnectionFailure host w =
    (Normal tt,
     set_isAutoFailoverInProgress false
       (set_sessionFailedServers []
          (silenced (reported (set_isAutoFailoverInProgress true w))))).
Proof.
  intros Hauto Hflag Hcand.
  rewrite (handleConnectionFailure_runs host w Hauto Hflag).
  unfold try_finally, try_catch. rewrite failoverEpisode_start.
  change (candidatesOf (set_isAutoFailoverInProgress true w)) with (candidatesOf w).
  rewrite Hcand. reflexivity.
Qed.

End Episodes.

(** X9. Failover never lands on a server that already failed or does not
    answer.  When an episode that passed the guard ends with the supervisor
    Connected, the active server of the store is a known server that was
    not in the session list when the episode began (nor is it the server
    whose failure was reported) and that answered the latency probe. *)
Theorem failover_selects_only_fresh_reachable_server :
  forall (host : Main.Host) (w : Main.World),
    Main.autoReconnectEnabled w = true ->
    Main.isAutoFailoverInProgress w = false ->
    let after := snd (Main.handleConnectionFailure host w) in
    Main.isConnected after = true ->
    exists s,
      In s (servers (Main.store w)) /\
      includes (Observe.failedAfterReport w) (id s) = false /\
      Main.latency host s <> None /\
      activeServer (Main.store after) = Some (id s).
Proof.
  intros host w Hauto Hflag after Hon. unfold after in *. clear after.
  destruct (Observe.candidatesOf w) as [|c cs] eqn:Hcand.
  - rewrite (handleConnectionFailure_exhausted host w Hauto Hflag Hcand) in Hon.
    destruct (silenced_reported_frame (Main.set_isAutoFailoverInProgress true w))
      as (Hoff & _). cbn in Hon. congruence.
  - assert (Hne : Observe.candidatesOf w <> []) by congruence.
    destruct (silenced_reported_frame (Main.set_isAutoFailoverInProgress true w))
      as (Hoff & _ & Hstore).
    destruct (handleConnectionFailure_cases host w Hauto Hflag Hne)
      as [[_ Hrun] | (_ & connected & w1 & Hloop & Hrun)];
      rewrite Hrun in Hon |- *; cbn [snd] in *.
    + cbn in Hon. congruence.
    + destruct (failoverLoop_outcome host
                  (NetworkMonitor.getRankedServers (Main.latency host)
                     (Observe.candidatesOf w)) _ Hoff)
        as (connected' & w1' & tried & rest & Hloop' & Hsplit & Hc & _ & _ & _ & Hrest).
      rewrite Hloop in Hloop'. injection Hloop' as <- <-.
      cbn in Hon. rewrite Hon in Hc. subst connected.
      destruct rest as [|s rest]; [discriminate|].
      destruct Hrest as [_ Hactive].
      assert (Hranked : In s (NetworkMonitor.getRankedServers (Main.latency host)
                                (Observe.candidatesOf w))).
      { rewrite Hsplit. apply in_or_app. right. left. reflexivity. }
      apply getRankedServers_In in Hranked. destruct Hranked as [Hincand Hlat].
      apply availableServers_In in Hincand. destruct Hincand as [Hin Hfresh].
      exists s. repeat split; try assumption.
      cbn. apply Hactive. rewrite Hstore. cbn. apply find_by_id_In. exact Hin.
Qed.

Lemma failover_selects_only_fresh_reachable_server_witness :
  let after := snd (Main.handleConnectionFailure Sample.secondChoiceHost
                      Sample.connected) in
  exists s,
    In s (servers (Main.store Sample.connected)) /\
    includes (Observe.failedAfterReport Sample.connected) (id s) = false /\
    Main.latency Sample.secondChoiceHost s <> None /\
    activeServer (Main.store after) = Some (id s).
Proof.
  apply (failover_selects_only_fresh_reachable_server Sample.secondChoiceHost
           Sample.connected); vm_compute; reflexivity.
Defined.

(** X10. Total failure of an episode.  When an episode that found
    candidates, and whose ranking call did not fail, ends with the
    supervisor Disconnected, the session list holds everything it held
    when the failure was reported, the server whose failure was reported
    included, and the identifier of every candidate that answered the
    latency probe: each of them was tried and failed.  The next episode
    will not try them again. *)
Theorem failover_total_failure_keeps_every_attempt :
  forall (host : Main.Host) (w : Main.World),
    Main.autoReconnectEnabled w = true ->
    Main.isAutoFailoverInProgress w = false ->
    Observe.candidatesOf w <> [] ->
    Main.rankingFault host = None ->
    let after := snd (Main.handleConnectionFailure host w) in
    Main.isConnected after = false ->
    (forall sid, In sid (Observe.failedAfterReport w) ->
                 In sid (Main.sessionFailedServers after)) /\
    (forall s, In s (Observe.candidatesOf w) -> Main.latency host s <> None ->
               In (id s) (Main.sessionFailedServers after)) /\
    (forall s, In s (Observe.candidatesOf w) -> Main.latency host s <> None ->
               ~ In s (Main.availableServers (servers (Main.store after))
                         (Main.sessionFailedServers after))).
Proof.
  intros host w Hauto Hflag Hne Hfault after Hoff'. unfold after in *. clear after.
  destruct (silenced_reported_frame (Main.set_isAutoFailoverInProgress true w))
    as (Hoff & Hsession & _).
  destruct (handleConnectionFailure_cases host w Hauto Hflag Hne)
    as [[Hf _] | (_ & connected & w1 & Hloop & Hrun)]; [congruence|].
  rewrite Hrun in Hoff' |- *. cbn [snd] in *.
  destruct (failoverLoop_outcome host
              (NetworkMonitor.getRankedServers (Main.latency host)
                 (Observe.candidatesOf w)) _ Hoff)
    as (connected' & w1' & tried & rest & Hloop' & Hsplit & Hc & Hs & _ & _ & Hrest).
  rewrite Hloop in Hloop'. injection Hloop' as <- <-.
  cbn in Hoff'. rewrite Hoff' in Hc. subst connected.
  destruct rest as [|s rest]; [|destruct Hrest; discriminate].
  rewrite app_nil_r in Hsplit. subst tried.
  cbn [Main.sessionFailedServers Main.set_isAutoFailoverInProgress].
  change (Observe.failedAfterReport (Main.set_isAutoFailoverInProgress true w))
    with (Observe.failedAfterReport w) in Hsession.
  rewrite Hs, Hsession.
  assert (Hall : forall s, In s (Observe.candidatesOf w) ->
                           Main.latency host s <> None ->
                           In (id s) (Observe.failedAfterReport w
                                      ++ map id (NetworkMonitor.getRankedServers
                                                   (Main.latency host)
                                                   (Observe.candidatesOf w)))%list).
  { intros s Hin Hlat. apply in_or_app. right. apply in_map.
    apply getRankedServers_complete; assumption. }
  split; [| split].
  - intros sid Hin. apply in_or_app. left. exact Hin.
  - exact Hall.
  - intros s Hin Hlat Havail.
    apply availableServers_In in Havail. destruct Havail as [_ Hfresh].
    specialize (Hall s Hin Hlat).
    unfold includes in Hfresh.
    assert (Hex : existsb (String.eqb (id s))
                    (Observe.failedAfterReport w
                     ++ map id (NetworkMonitor.getRankedServers (Main.latency host)
                                  (Observe.candidatesOf w)))%list = true).
    { apply existsb_exists. exists (id s). split; [exact Hall | apply String.eqb_refl]. }
    cbn in Hfresh. congruence.
Qed.

Lemma failover_total_failure_keeps_every_attempt_witness :
  let after := snd (Main.handleConnectionFailure (Sample.hostOf Sample.noTraffic)
                      Sample.connected) in
  In "A" (Main.sessionFailedServers after) /\
  In "C" (Main.sessionFailedServers after).
Proof.
  pose proof (failover_total_failure_keeps_every_attempt
                (Sample.hostOf Sample.noTraffic) Sample.connected
                eq_refl eq_refl ltac:(vm_compute; discriminate) eq_refl
                ltac:(vm_compute; reflexivity)) as H.
  cbv zeta in H. destruct H as (Hkept & Htried & _).
  split.
  - apply Hkept. vm_compute. auto.
  - apply (Htried Sample.serverC); vm_compute; [auto | discriminate].
Defined.

(** ** The renderer's sort *)

Section RendererSort.
Import Renderer RendererList.

Let cmp (a b : Pinged) : Z := comparePings (snd a) (snd b).

Lemma pingOrder_trans a b c : pingOrder a b -> pingOrder b c -> pingOrder a c.
Proof.
  unfold pingOrder, comparePings.
  destruct (snd a), (snd b), (snd c); lia.
Qed.

Lemma pingOrder_total a b : pingOrder a b \/ pingOrder b a.
Proof.
  unfold pingOrder, comparePings. destruct (snd a), (snd b); lia.
Qed.

Lemma insertSorted_perm x l : Permutation (insertSorted cmp x l) (x :: l).
Proof.
  induction l as [|y l IH]; cbn [insertSorted]; [reflexivity|].
  destruct (0 <? cmp y x); [reflexivity|].
  rewrite IH. apply perm_swap.
Qed.

Lemma insertSorted_sorted x l :
  StronglySorted pingOrder l -> StronglySorted pingOrder (insertSorted cmp x l).
Proof.
  induction 1 as [|y l Hsorted IH Hall]; cbn [insertSorted].
  - repeat constructor.
  - destruct (0 <? cmp y x) eqn:Hlt.
    + apply Z.ltb_lt in Hlt.
      assert (Hxy : pingOrder x y).
      { unfold pingOrder, cmp, comparePings in *.
        destruct (snd x), (snd y); lia. }
      constructor; [constructor; assumption|].
      constructor; [exact Hxy|].
      eapply Forall_impl; [|exact Hall].
      intros z Hz. eapply pingOrder_trans; eassumption.
    + apply Z.ltb_ge in Hlt.
      constructor; [exact IH|].
      apply (Permutation_Forall (Permutation_sym (insertSorted_perm x l))).
      constructor; [exact Hlt | exact Hall].
Qed.

Lemma sort_fold_perm l acc :
  Permutation (fold_left (fun acc x => insertSorted cmp x acc) l acc) (acc ++ l).
Proof.
  revert acc. induction l as [|x l IH]; intros acc; cbn [fold_left].
  - rewrite app_nil_r. reflexivity.
  - rewrite IH, insertSorted_perm.
    change (x :: acc) with ([x] ++ acc)%list.
    rewrite (Permutation_app_comm [x] acc), <- app_assoc. reflexivity.
Qed.

Lemma sort_fold_sorted l acc :
  StronglySorted pingOrder acc ->
  StronglySorted pingOrder (fold_left (fun acc x => insertSorted cmp x acc) l acc).
Proof.
  revert acc. induction l as [|x l IH]; intros acc Hacc; cbn [fold_left].
  - exact Hacc.
  - apply IH, insertSorted_sorted, Hacc.
Qed.

End RendererSort.

(** X11. The renderer's ranking of the server list.  Sorting the pinged
    servers loses and duplicates nothing, puts every reachable server
    before every unreachable one, and orders the reachable ones by
    ascending ping: each item is in order with every item after it. *)
Theorem sortServersWithPings_orders_without_loss :
  forall l : list RendererList.Pinged,
    Permutation (Renderer.sortServersWithPings l) l /\
    StronglySorted RendererList.pingOrder (Renderer.sortServersWithPings l) /\
    (forall before x after,
       Renderer.sortServersWithPings l = (before ++ x :: after)%list ->
       forall y, In y after ->
         match snd x, snd y with
         | Some px, Some py => px <= py
         | None, Some _ => False
         | _, None => True
         end).
Proof.
  intros l.
  assert (Hperm : Permutation (Renderer.sortServersWithPings l) l)
    by apply (sort_fold_perm l []).
  assert (Hsorted : StronglySorted RendererList.pingOrder
                      (Renderer.sortServersWithPings l))
    by (apply sort_fold_sorted; constructor).
  split; [exact Hperm | split; [exact Hsorted|]].
  intros before x after Hsplit y Hy. rewrite Hsplit in Hsorted.
  clear Hsplit Hperm.
  induction before as [|b before IH]; cbn in Hsorted.
  - inversion Hsorted as [|? ? _ Hall]; subst.
    rewrite Forall_forall in Hall. specialize (Hall y Hy).
    unfold RendererList.pingOrder, Renderer.comparePings in Hall.
    destruct (snd x), (snd y); try lia; exact I.
  - inversion Hsorted as [|? ? Hrest _]; subst. exact (IH Hrest).
Qed.

(** [find] returns the first element that passes the test. *)
Lemma find_first {A} (f : A -> bool) (l : list A) (x : A) :
  find f l = Some x ->
  exists before after,
    l = (before ++ x :: after)%list /\
    (forall y, In y before -> f y = false) /\
    f x = true.
Proof.
  induction l as [|y l IH]; cbn [find]; [discriminate|].
  destruct (f y) eqn:Hy.
  - intros [= <-]. exists [], l. repeat split; [intros ? [] | exact Hy].
  - intros Hfind. destruct (IH Hfind) as (before & after & -> & Hbefore & Hx).
    exists (y :: before), after. repeat split; [|exact Hx].
    intros z [<- | Hz]; [exact Hy | exact (Hbefore z Hz)].
Qed.

(** The sorted list, for the use of other proofs. *)
Lemma sortServersWithPings_sorted_perm (l : list RendererList.Pinged) :
  Permutation (Renderer.sortServersWithPings l) l /\
  (forall before x after,
     Renderer.sortServersWithPings l = (before ++ x :: after)%list ->
     forall y, In y after ->
       match snd x, snd y with
       | Some px, Some py => px <= py
       | None, Some _ => False
       | _, None => True
       end).
Proof.
  assert (Hsorted : StronglySorted RendererList.pingOrder
                      (Renderer.sortServersWithPings l))
    by (apply sort_fold_sorted; constructor).
  split; [apply (sort_fold_perm l [])|].
  intros before x after Hsplit y Hy. rewrite Hsplit in Hsorted. clear Hsplit.
  induction before as [|b before IH]; cbn in Hsorted.
  - inversion Hsorted as [|? ? _ Hall]; subst.
    rewrite Forall_forall in Hall. specialize (Hall y Hy).
    unfold RendererList.pingOrder, Renderer.comparePings in Hall.
    destruct (snd x), (snd y); try lia; exact I.
  - inversion Hsorted as [|? ? Hrest _]; subst. exact (IH Hrest).
Qed.

(** X12. The server picked for an automatic reconnect.  On the sorted list,
    the renderer hands to [selectServer] the reachable server with the
    smallest ping, provided it is not the active one, and clears the
    pending flag.  If that best server is the active one, nothing is
    selected and the flag stays set.  If no server is reachable, nothing is
    selected and the flag is cleared. *)
Theorem autoReconnectChoice_picks_fastest_reachable :
  forall (l : list RendererList.Pinged) (activeServerId : option ServerId),
    let sorted := Renderer.sortServersWithPings l in
    let fastest (s : Server) :=
      exists p, In (s, Some p) l /\ forall t q, In (t, Some q) l -> p <= q in
    match RendererList.autoReconnectChoice sorted activeServerId with
    | (Some s, again) =>
        again = false /\ fastest s /\ activeServerId <> Some (id s)
    | (None, true) =>
        exists s, fastest s /\ activeServerId = Some (id s)
    | (None, false) =>
        forall item, In item l -> snd item = None
    end.
Proof.
  intros l active sorted fastest.
  destruct (sortServersWithPings_sorted_perm l) as (Hperm & Hafter).
  fold sorted in Hperm, Hafter.
  unfold RendererList.autoReconnectChoice.
  destruct (find RendererList.isHealthy sorted) as [[s o]|] eqn:Hfind.
  - assert (Hfast : fastest s).
    { destruct (find_first _ _ _ Hfind) as (before & after & Hsplit & Hbefore & Hx).
      unfold RendererList.isHealthy in Hx. cbn in Hx.
      destruct o as [p|]; [|discriminate].
      exists p. split.
      - apply (Permutation_in _ Hperm). rewrite Hsplit.
        apply in_or_app. right. left. reflexivity.
      - intros t q Hin.
        apply (Permutation_in _ (Permutation_sym Hperm)) in Hin.
        rewrite Hsplit in Hin. apply in_app_or in Hin.
        destruct Hin as [Hin | [Heq | Hin]].
        + apply Hbefore in Hin. discriminate.
        + injection Heq as _ <-. lia.
        + exact (Hafter before (s, Some p) after Hsplit (t, Some q) Hin). }
    cbn [fst]. destruct active as [a|].
    + destruct (String.eqb (id s) a) eqn:Heq; cbn [negb].
      * apply String.eqb_eq in Heq. exists s. split; [exact Hfast | congruence].
      * apply String.eqb_neq in Heq. repeat split; [exact Hfast | congruence].
    + repeat split; [exact Hfast | discriminate].
  - intros item Hin.
    apply (Permutation_in _ (Permutation_sym Hperm)) in Hin.
    apply (find_none _ _ Hfind) in Hin.
    unfold RendererList.isHealthy in Hin. destruct (snd item); [discriminate | reflexivity].
Qed.

(** ** Escaping for HTML *)

Section Escaping.
Import Ascii Html.

Lemma string_app_assoc (a b c : string) : (a ++ b) ++ c = a ++ (b ++ c).
Proof.
  induction a as [|d a IH]; cbn [append]; [reflexivity|].
  rewrite IH. reflexivity.
Qed.

Lemma replaceAll_app c by_ a b :
  replaceAll c by_ (a ++ b) = replaceAll c by_ a ++ replaceAll c by_ b.
Proof.
  induction a as [|d a IH]; cbn [append replaceAll]; [reflexivity|].
  rewrite IH. destruct (Ascii.eqb d c); [|reflexivity].
  symmetry. apply string_app_assoc.
Qed.

Lemma occurs_app d a b : occurs d (a ++ b) = occurs d a || occurs d b.
Proof.
  induction a as [|e a IH]; cbn [append occurs]; [reflexivity|].
  rewrite IH, orb_assoc. reflexivity.
Qed.

(** The five passes, on a string that starts with [d]. *)
Lemma escapeHtml_cons d rest :
  escapeHtml (String d rest) = escapeChar d ++ escapeHtml rest.
Proof.
  unfold escapeHtml, escapeChar.
  cbn [replaceAll].
  destruct (Ascii.eqb d amp) eqn:Hamp.
  { rewrite !replaceAll_app. reflexivity. }
  cbn [replaceAll].
  destruct (Ascii.eqb d lt) eqn:Hlt.
  { rewrite !replaceAll_app. reflexivity. }
  cbn [replaceAll].
  destruct (Ascii.eqb d gt) eqn:Hgt.
  { rewrite !replaceAll_app. reflexivity. }
  cbn [replaceAll].
  destruct (Ascii.eqb d quot) eqn:Hquot.
  { rewrite !replaceAll_app. reflexivity. }
  cbn [replaceAll].
  destruct (Ascii.eqb d apos) eqn:Hapos; reflexivity.
Qed.

Lemma escapeChar_clean d e : isMarkup e = true -> occurs e (escapeChar d) = false.
Proof.
  unfold isMarkup, escapeChar. intros He.
  destruct (Ascii.eqb d amp) eqn:Hamp;
    [| destruct (Ascii.eqb d lt) eqn:Hlt;
       [| destruct (Ascii.eqb d gt) eqn:Hgt;
          [| destruct (Ascii.eqb d quot) eqn:Hquot;
             [| destruct (Ascii.eqb d apos) eqn:Hapos]]]].
  1-5: repeat (apply orb_prop in He; destruct He as [He|He]);
       apply Ascii.eqb_eq in He; subst e; reflexivity.
  cbn [occurs]. rewrite orb_false_r.
  repeat (apply orb_prop in He; destruct He as [He|He]);
    apply Ascii.eqb_eq in He; subst e; assumption.
Qed.

End Escaping.

(** X13. The five passes of [escapeHtml] act as one substitution: each of
    the five characters (ampersand, less-than, greater-than, double quote,
    apostrophe) is replaced by its entity and every other character is
    kept, so the text a pass has produced is never touched by a later pass
    (the ampersand of an entity is not escaped again), and escaping
    distributes over concatenation. *)
Theorem escapeHtml_is_one_substitution :
  (forall s, Html.escapeHtml s = Html.substitute s) /\
  (forall a b, Html.escapeHtml (a ++ b) = Html.escapeHtml a ++ Html.escapeHtml b).
Proof.
  assert (Hsub : forall s, Html.escapeHtml s = Html.substitute s).
  { induction s as [|d s IH]; [reflexivity|].
    rewrite escapeHtml_cons, IH. reflexivity. }
  split; [exact Hsub|].
  intros a b. unfold Html.escapeHtml. rewrite !replaceAll_app. reflexivity.
Qed.

(** X14. The output of [escapeHtml] holds no character that can open or
    close markup or an attribute value: no less-than, greater-than, double
    quote or apostrophe occurs in it, whatever the input. *)
Theorem escapeHtml_leaves_no_markup :
  forall (unsafe : string) (d : Ascii.ascii),
    Html.isMarkup d = true ->
    Html.occurs d (Html.escapeHtml unsafe) = false.
Proof.
  intros unsafe d Hd.
  induction unsafe as [|e rest IH]; [reflexivity|].
  rewrite escapeHtml_cons, occurs_app, IH, (escapeChar_clean e d Hd). reflexivity.
Qed.

Lemma escapeHtml_leaves_no_markup_witness :
  Html.occurs Html.lt (Html.escapeHtml "<img src='x' onerror=alert(1)>") = false.
Proof.
  apply escapeHtml_leaves_no_markup. reflexivity.
Defined.

Example escapeHtml_sample :
  Html.escapeHtml "Tom & Jerry's <b>server</b>" =
    "Tom &amp; Jerry&#039;s &lt;b&gt;server&lt;/b&gt;".
Proof. reflexivity. Qed.

(** ** The uptime clock *)

Section Clock.
Import Uptime.

(** Below one hundred, a padded number has exactly two characters. *)
Lemma padStart2_two_digits (n : Z) :
  0 <= n < 100 -> String.length (padStart2 (show_Z n)) = 2%nat.
Proof.
  intros H.
  assert (Hall : forallb
            (fun k => Nat.eqb (String.length (padStart2 (show_Z (Z.of_nat k)))) 2)
            (seq 0 100) = true) by (vm_compute; reflexivity).
  rewrite forallb_forall in Hall.
  specialize (Hall (Z.to_nat n)). rewrite Z2Nat.id in Hall by lia.
  apply Nat.eqb_eq, Hall, in_seq. lia.
Qed.

(** The renderer splits milliseconds, the main process whole seconds: for
    an elapsed time that is not negative the three numbers agree. *)
Lemma split_agrees (ms : Z) :
  0 <= ms ->
  floorDiv ms 3600000 = floorDiv (floorDiv ms 1000) 3600 /\
  floorDiv (remainder ms 3600000) 60000 =
    floorDiv (remainder (floorDiv ms 1000) 3600) 60 /\
  floorDiv (remainder ms 60000) 1000 = remainder (floorDiv ms 1000) 60.
Proof.
  intros H. unfold floorDiv, remainder.
  assert (H1 : 0 <= ms / 1000) by (apply Z.div_pos; lia).
  rewrite !Z.rem_mod_nonneg by lia.
  repeat split; Z.to_euclidean_division_equations; lia.
Qed.

Lemma length_app (a b : string) :
  String.length (a ++ b) = (String.length a + String.length b)%nat.
Proof. induction a as [|c a IH]; cbn; [reflexivity | now rewrite IH]. Qed.

Lemma clock_length (f : Fields) :
  String.length (clock f) =
    (String.length (hours f) + String.length (minutes f)
     + String.length (seconds f) + 2)%nat.
Proof.
  unfold clock. rewrite !length_app. cbn [String.length]. lia.
Qed.

End Clock.

(** X15. The label and the status report show the same clock.  For the
    same start time and the same instant, not before the start, the text
    that the renderer's [updateUptime] writes is the one obtained from the
    three fields that the main process puts in [status.uptime]. *)
Theorem uptime_label_agrees_with_status :
  forall now start,
    start <> 0 -> start <= now ->
    exists f,
      Uptime.statusUptime now (Some start) = Some f /\
      Uptime.updateUptime now (Some start) = Some (Uptime.clock f).
Proof.
  intros now start Hstart Hle.
  unfold Uptime.statusUptime, Uptime.updateUptime, Uptime.truthyTime.
  destruct start as [|p|p]; [congruence| |];
    (eexists; split; [reflexivity|]);
    unfold Uptime.clock; cbn [Uptime.hours Uptime.minutes Uptime.seconds];
    match goal with
    | |- context [Uptime.floorDiv ?ms 3600000] =>
        destruct (split_agrees ms) as (-> & -> & ->); [lia | reflexivity]
    end.
Qed.

Lemma uptime_label_agrees_with_status_witness :
  exists f,
    Uptime.statusUptime 1700003725250 (Some 1700000000000) = Some f /\
    Uptime.updateUptime 1700003725250 (Some 1700000000000) =
      Some (Uptime.clock f).
Proof.
  apply (uptime_label_agrees_with_status 1700003725250 1700000000000); lia.
Defined.

(** X16. The fields of the uptime are a clock reading.  With [t] the whole
    seconds elapsed since the start, the three fields print numbers [h],
    [m] and [s] with [t = 3600 h + 60 m + s], [m] and [s] below 60; minutes
    and seconds always have two characters, and under one hundred hours the
    whole text has eight. *)
Theorem uptime_fields_decompose :
  forall now start f,
    start <> 0 -> start <= now ->
    Uptime.statusUptime now (Some start) = Some f ->
    exists h m s,
      f = Uptime.mkFields (Uptime.padStart2 (show_Z h))
            (Uptime.padStart2 (show_Z m)) (Uptime.padStart2 (show_Z s)) /\
      0 <= h /\ 0 <= m < 60 /\ 0 <= s < 60 /\
      3600 * h + 60 * m + s = (now - start) / 1000 /\
      String.length (Uptime.minutes f) = 2%nat /\
      String.length (Uptime.seconds f) = 2%nat /\
      (now - start < 360000000 -> String.length (Uptime.clock f) = 8%nat).
Proof.
  intros now start f Hstart Hle Hf.
  assert (Ht : 0 <= (now - start) / 1000) by (apply Z.div_pos; lia).
  unfold Uptime.statusUptime, Uptime.truthyTime in Hf.
  assert (Hf' : f = Uptime.mkFields
            (Uptime.padStart2 (show_Z ((now - start) / 1000 / 3600)))
            (Uptime.padStart2 (show_Z (((now - start) / 1000) mod 3600 / 60)))
            (Uptime.padStart2 (show_Z (((now - start) / 1000) mod 60)))).
  { destruct start as [|p|p]; [congruence| |];
      injection Hf as <-; unfold Uptime.floorDiv, Uptime.remainder;
      rewrite !Z.rem_mod_nonneg by lia; reflexivity. }
  clear Hf. subst f.
  set (t := (now - start) / 1000) in *.
  assert (Hm : 0 <= t mod 3600 / 60 < 60)
    by (Z.to_euclidean_division_equations; lia).
  assert (Hs : 0 <= t mod 60 < 60) by (apply Z.mod_pos_bound; lia).
  exists (t / 3600), (t mod 3600 / 60), (t mod 60).
  split; [reflexivity|].
  split; [apply Z.div_pos; lia|].
  split; [exact Hm|]. split; [exact Hs|].
  split; [Z.to_euclidean_division_equations; lia|].
  cbn [Uptime.minutes Uptime.seconds].
  split; [apply padStart2_two_digits; lia|].
  split; [apply padStart2_two_digits; lia|].
  intros Hshort. rewrite clock_length.
  cbn [Uptime.hours Uptime.minutes Uptime.seconds].
  rewrite !padStart2_two_digits; [reflexivity | lia | lia |].
  subst t. Z.to_euclidean_division_equations; lia.
Qed.

Lemma uptime_fields_decompose_witness :
  exists h m s,
    Uptime.mkFields "01" "02" "05" =
      Uptime.mkFields (Uptime.padStart2 (show_Z h))
        (Uptime.padStart2 (show_Z m)) (Uptime.padStart2 (show_Z s)) /\
    0 <= h /\ 0 <= m < 60 /\ 0 <= s < 60 /\
    3600 * h + 60 * m + s = (1700003725250 - 1700000000000) / 1000 /\
    String.length (Uptime.minutes (Uptime.mkFields "01" "02" "05")) = 2%nat /\
    String.length (Uptime.seconds (Uptime.mkFields "01" "02" "05")) = 2%nat /\
    (1700003725250 - 1700000000000 < 360000000 ->
     String.length (Uptime.clock (Uptime.mkFields "01" "02" "05")) = 8%nat).
Proof.
  apply (uptime_fields_decompose 1700003725250 1700000000000
           (Uptime.mkFields "01" "02" "05")); [lia | lia | reflexivity].
Defined.

(** A clock that runs behind the start time: the two sides then print
    different seconds, the renderer a negative number. *)
Example uptime_before_start :
  Uptime.updateUptime 1700000000500 (Some 1700000060000) = Some "-1:-1:-60" /\
  option_map Uptime.clock (Uptime.statusUptime 1700000000500 (Some 1700000060000))
    = Some "-1:-1:00".
Proof. split; vm_compute; reflexivity. Qed.

(** ** Switching the active server *)

(** Run [setActiveServer] up to its calls of [connectVPN], which stay
    folded. *)
Ltac exec_switch :=
  cbv [ServerSwitch.setActiveServer ServerSwitch.setActiveServer_try
       ServerSwitch.reconnect ServerSwitch.serverManager_loadServers
       ServerSwitch.set_serversData Main.serverManager_setActiveServer
       Main.disconnectVPN Main.try_catch Main.bind Main.get Main.ret
       Main.throw Main.kill Main.configureProxy Main.assign_isConnected
       Main.stopMonitoring Main.updateTray Main.send Main.emit Main.modify
       Main.set_xrayProcess Main.set_isConnected Main.set_connectionStartTime
       Main.set_monitor Main.set_systemProxy Main.set_running Main.set_trace
       Main.set_store
       Main.mainWindow Main.tray Main.xrayProcess Main.isConnected
       Main.connectionStartTime Main.serversData Main.autoReconnectEnabled
       Main.isAutoFailoverInProgress Main.lastConnectedIP
       Main.sessionFailedServers Main.store Main.monitor Main.systemProxy
       Main.running Main.spawned Main.attempts Main.trace
       Observe.tornDown Observe.teardownEffects
       servers activeServer negb fst snd].

Section Switch.
Import Main Observe ServerSwitch.
Variable host : Host.
Variable env : SwitchEnv.

(** What any run of [connectVPN] leaves alone, and what it costs. *)
Lemma connectVPN_frame isEmergencyReconnect w :
  exists r,
    fst (connectVPN host isEmergencyReconnect w) = Normal r /\
    store (snd (connectVPN host isEmergencyReconnect w)) = store w /\
    serversData (snd (connectVPN host isEmergencyReconnect w)) = serversData w /\
    (isConnected w = false ->
     isConnected (snd (connectVPN host isEmergencyReconnect w)) = success r) /\
    (isConnected w = false -> getActiveServer w <> None ->
     attempts (snd (connectVPN host isEmergencyReconnect w)) = S (attempts w)).
Proof.
  destruct_world w. exec. split_cases; eexists;
    (split; [reflexivity|]); repeat split;
    try (intros Hc; discriminate Hc); try (intros _ Hn; congruence).
Qed.

(** An unknown identifier, step by step. *)
Lemma setActiveServer_unknown serverId w :
  find_by_id (servers (store w)) serverId = None ->
  setActiveServer host env serverId w =
    (Normal (NotSwitched (notFoundMessage env)),
     if isConnected w
     then snd (connectVPN host false (tornDown (snd (stopMonitoring w))))
     else snd (stopMonitoring w)).
Proof.
  destruct_world w. destruct st as [known act]. cbn [store servers].
  intros Hfind.
  destruct ic, xp as [p|], tr, mw; exec_switch; rewrite Hfind;
    cbv beta iota; rewrite <- ?app_assoc; cbn [app]; try reflexivity;
    match goal with
    | |- context [connectVPN host false ?w1] =>
        destruct (connectVPN_frame false w1) as (r & Hr & _);
        destruct (connectVPN host false w1) as [c w2];
        cbn [fst snd] in *; subst c; reflexivity
    end.
Qed.

(** A known identifier, step by step. *)
Lemma setActiveServer_known serverId s w :
  find_by_id (servers (store w)) serverId = Some s ->
  loadFault env = None ->
  exists w',
    setActiveServer host env serverId w = (Normal (Switched s), w') /\
    store w' = mkServersData (servers (store w)) (Some serverId) /\
    serversData w' = store w' /\
    (isConnected w = false ->
     isConnected w' = false /\ attempts w' = attempts w /\
     xrayProcess w' = xrayProcess w /\ running w' = running w /\
     systemProxy w' = systemProxy w) /\
    (isConnected w = true -> serverId <> "" ->
     attempts w' = S (attempts w)).
Proof.
  destruct_world w. destruct st as [known act].
  cbn [store servers isConnected attempts xrayProcess running systemProxy].
  intros Hfind Hload.
  destruct ic, xp as [p|], tr, mw; exec_switch; rewrite Hfind, ?Hload;
    cbv beta iota; rewrite Hfind; cbv beta iota;
    try (eexists; split; [reflexivity|]; repeat split; discriminate);
    match goal with
    | |- context [connectVPN host false ?w1] =>
        destruct (connectVPN_frame false w1) as (r & Hr & Hst & Hsd & _ & Hat);
        destruct (connectVPN host false w1) as [c w2];
        cbn [fst snd] in *; subst c;
        eexists; split; [reflexivity|];
        split; [exact Hst|]; split; [exact (eq_trans Hsd (eq_sym Hst))|];
        split; [discriminate|];
        intros _ Hid; refine (Hat eq_refl _);
        unfold getActiveServer, truthy; cbn [serversData activeServer servers];
        destruct (String.eqb serverId "") eqn:He;
        [apply String.eqb_eq in He; contradiction | rewrite Hfind; discriminate]
    end.
Qed.

End Switch.

(** X17. Selecting an identifier the store does not know.  The call
    answers with the store's message and changes neither the store nor the
    cached list; a supervisor that was not connected only has its monitor
    stopped, while a connected one is torn down and then left in whatever
    state a fresh [connectVPN()] to the previous server produces, the result
    of which is dropped. *)
Theorem setActiveServer_unknown_id_keeps_selection :
  forall (host : Main.Host) (env : ServerSwitch.SwitchEnv)
         (serverId : ServerId) (w : Main.World),
    find_by_id (servers (Main.store w)) serverId = None ->
    let run := ServerSwitch.setActiveServer host env serverId w in
    fst run =
      Main.Normal (ServerSwitch.NotSwitched (ServerSwitch.notFoundMessage env)) /\
    snd run =
      (if Main.isConnected w
       then snd (Main.connectVPN host false
                   (Observe.tornDown (snd (Main.stopMonitoring w))))
       else snd (Main.stopMonitoring w)) /\
    Main.store (snd run) = Main.store w /\
    Main.serversData (snd run) = Main.serversData w.
Proof.
  intros host env serverId w Hfind run. subst run.
  rewrite (setActiveServer_unknown host env serverId w Hfind).
  cbn [fst snd]. split; [reflexivity|]. split; [reflexivity|].
  destruct (Main.isConnected w).
  - destruct (connectVPN_frame host false
                (Observe.tornDown (snd (Main.stopMonitoring w))))
      as (r & _ & Hst & Hsd & _).
    rewrite Hst, Hsd. split; reflexivity.
  - split; reflexivity.
Qed.

Lemma setActiveServer_unknown_id_keeps_selection_witness :
  let run :=
    ServerSwitch.setActiveServer (Sample.hostOf Sample.goodAttempt)
      (ServerSwitch.mkSwitchEnv "Server not found" None "TypeError") "Z"
      Sample.connected in
  fst run = Main.Normal (ServerSwitch.NotSwitched "Server not found") /\
  snd run =
    (if Main.isConnected Sample.connected
     then snd (Main.connectVPN (Sample.hostOf Sample.goodAttempt) false
                 (Observe.tornDown (snd (Main.stopMonitoring Sample.connected))))
     else snd (Main.stopMonitoring Sample.connected)) /\
  Main.store (snd run) = Main.store Sample.connected /\
  Main.serversData (snd run) = Main.serversData Sample.connected.
Proof.
  refine (setActiveServer_unknown_id_keeps_selection
            (Sample.hostOf Sample.goodAttempt)
            (ServerSwitch.mkSwitchEnv "Server not found" None "TypeError") "Z"
            Sample.connected _).
  vm_compute; reflexivity.
Defined.

(** X18. Selecting a known server.  When the store knows the identifier
    and can be reloaded, the call reports success with that server, whatever
    happens to the tunnel: the store's active pointer is the new identifier,
    the main process's cached list is the store's, a supervisor that was not
    connected stays so (nothing is spawned, killed or configured), and a
    connected one makes exactly one connection attempt, whose outcome does
    not reach the caller. *)
Theorem setActiveServer_known_id_switches :
  forall (host : Main.Host) (env : ServerSwitch.SwitchEnv)
         (serverId : ServerId) (s : Server) (w : Main.World),
    find_by_id (servers (Main.store w)) serverId = Some s ->
    ServerSwitch.loadFault env = None ->
    exists w',
      ServerSwitch.setActiveServer host env serverId w =
        (Main.Normal (ServerSwitch.Switched s), w') /\
      Main.store w' = mkServersData (servers (Main.store w)) (Some serverId) /\
      Main.serversData w' = Main.store w' /\
      (Main.isConnected w = false ->
       Main.isConnected w' = false /\ Main.attempts w' = Main.attempts w /\
       Main.xrayProcess w' = Main.xrayProcess w /\
       Main.running w' = Main.running w /\
       Main.systemProxy w' = Main.systemProxy w) /\
      (Main.isConnected w = true -> serverId <> "" ->
       Main.attempts w' = S (Main.attempts w)).
Proof.
  intros host env serverId s w Hfind Hload.
  exact (setActiveServer_known host env serverId s w Hfind Hload).
Qed.

Lemma setActiveServer_known_id_switches_witness :
  exists w',
    ServerSwitch.setActiveServer (Sample.hostOf Sample.neverReady)
      (ServerSwitch.mkSwitchEnv "Server not found" None "TypeError") "B"
      Sample.connected =
      (Main.Normal (ServerSwitch.Switched Sample.serverB), w') /\
    Main.store w' =
      mkServersData (servers (Main.store Sample.connected)) (Some "B") /\
    Main.serversData w' = Main.store w' /\
    (Main.isConnected Sample.connected = false ->
     Main.isConnected w' = false /\
     Main.attempts w' = Main.attempts Sample.connected /\
     Main.xrayProcess w' = Main.xrayProcess Sample.connected /\
     Main.running w' = Main.running Sample.connected /\
     Main.systemProxy w' = Main.systemProxy Sample.connected) /\
    (Main.isConnected Sample.connected = true -> "B" <> "" ->
     Main.attempts w' = S (Main.attempts Sample.connected)).
Proof.
  refine (setActiveServer_known_id_switches (Sample.hostOf Sample.neverReady)
            (ServerSwitch.mkSwitchEnv "Server not found" None "TypeError") "B"
            Sample.serverB Sample.connected _ _);
    vm_compute; reflexivity.
Defined.

(** A switch that reports success and leaves no tunnel: the new server
    never opens its port, the attempt fails, and the answer is still
    [Switched]. *)
Example setActiveServer_success_without_tunnel :
  let run :=
    ServerSwitch.setActiveServer (Sample.hostOf Sample.neverReady)
      (ServerSwitch.mkSwitchEnv "Server not found" None "TypeError") "B"
      Sample.connected in
  fst run = Main.Normal (ServerSwitch.Switched Sample.serverB) /\
  Main.isConnected (snd run) = false /\
  Main.monitor (snd run) = None.
Proof. vm_compute. repeat split; reflexivity. Qed.

(** ** The system proxy *)

Section ProxyCommands.
Import SystemProxy.
Variable sh : Shell.

(** A [try] block issues a prefix of its commands and completes exactly
    when none of them throws. *)
Lemma execAll_run cs log :
  exists issued,
    snd (execAll sh cs log) = (log ++ issued)%list /\
    incl issued cs /\
    completed (fst (execAll sh cs log)) =
      forallb (fun c => completed (fault sh c)) cs.
Proof.
  revert log. induction cs as [|c cs IH]; intros log.
  - exists []. cbn. rewrite app_nil_r. repeat split. intros x [].
  - cbn [execAll execSync]. destruct (fault sh c) as [e|] eqn:Hc.
    + exists [c]. cbn. rewrite Hc. repeat split.
      intros x [<- | []]. left. reflexivity.
    + destruct (IH (log ++ [c])%list) as (issued & Hlog & Hincl & Hok).
      exists (c :: issued). rewrite Hlog, <- app_assoc. cbn. rewrite Hc.
      repeat split; [|exact Hok].
      intros x [<- | Hx]; [left; reflexivity | right; exact (Hincl x Hx)].
Qed.

Lemma proxyCommands_service enable kind service c :
  In c (proxyCommands enable kind service) -> serviceOf c = Some service.
Proof.
  unfold proxyCommands. destruct enable; cbn; intros H;
    repeat (destruct H as [<- | H]; [reflexivity|]); destruct H.
Qed.

(** One round of the loop: the flag is raised by the SOCKS block alone, and
    every command issued names the service of the round. *)
Lemma configureService_run enable configured log service :
  exists issued,
    configureService sh enable (configured, log) service =
      (configured || socksApplied sh enable service, (log ++ issued)%list) /\
    forall c, In c issued -> serviceOf c = Some service.
Proof.
  unfold configureService, socksApplied.
  destruct (execAll_run (proxyCommands enable socks service) log)
    as (i1 & H1 & I1 & O1).
  destruct (execAll sh (proxyCommands enable socks service) log) as [r1 l1].
  cbn [fst snd] in *. subst l1.
  destruct (execAll_run (proxyCommands enable web service) (log ++ i1)%list)
    as (i2 & H2 & I2 & _).
  destruct (execAll sh (proxyCommands enable web service) (log ++ i1)%list) as [r2 l2].
  cbn [fst snd] in *. subst l2.
  destruct (execAll_run (proxyCommands enable secureweb service)
              ((log ++ i1) ++ i2)%list) as (i3 & H3 & I3 & _).
  destruct (execAll sh (proxyCommands enable secureweb service)
              ((log ++ i1) ++ i2)%list) as [r3 l3].
  cbn [fst snd] in *. subst l3.
  exists (i1 ++ i2 ++ i3)%list. rewrite O1, <- !app_assoc.
  split; [reflexivity|].
  intros c Hc. apply in_app_or in Hc. destruct Hc as [Hc | Hc].
  - exact (proxyCommands_service _ _ _ _ (I1 c Hc)).
  - apply in_app_or in Hc. destruct Hc as [Hc | Hc].
    + exact (proxyCommands_service _ _ _ _ (I2 c Hc)).
    + exact (proxyCommands_service _ _ _ _ (I3 c Hc)).
Qed.

(** The whole loop. *)
Lemma configureServices_run enable services :
  forall configured log,
  exists issued,
    fold_left (configureService sh enable) services (configured, log) =
      (configured || existsb (socksApplied sh enable) services,
       (log ++ issued)%list) /\
    forall c, In c issued ->
      exists service, In service services /\ serviceOf c = Some service.
Proof.
  induction services as [|service rest IH]; intros configured log.
  - exists []. cbn. rewrite app_nil_r, orb_false_r. split; [reflexivity|].
    intros c [].
  - cbn [fold_left existsb].
    destruct (configureService_run enable configured log service)
      as (i1 & -> & H1).
    destruct (IH (configured || socksApplied sh enable service)
                (log ++ i1)%list) as (i2 & -> & H2).
    exists (i1 ++ i2)%list. rewrite orb_assoc, app_assoc.
    split; [reflexivity|].
    intros c Hc. apply in_app_or in Hc. destruct Hc as [Hc | Hc].
    + exists service. split; [left; reflexivity | exact (H1 c Hc)].
    + destruct (H2 c Hc) as (s & Hs & Hsvc).
      exists s. split; [right; exact Hs | exact Hsvc].
Qed.

(** The services of the loop, as the source computes them. *)
Lemma primary_eligible service :
  (forall l s, In s (sortServices sh l) -> In s l) ->
  In service
    (filter isPrimary
       (sortServices sh
          (filter enabledService (split newline (servicesOutput sh))))) ->
  eligible sh service.
Proof.
  intros Hsort Hin. apply filter_In in Hin. destruct Hin as [Hin Hprimary].
  apply Hsort, filter_In in Hin. destruct Hin as [Hin Henabled].
  repeat split; assumption.
Qed.

Lemma eligible_primary service :
  (forall l, Permutation (sortServices sh l) l) ->
  eligible sh service ->
  In service
    (filter isPrimary
       (sortServices sh
          (filter enabledService (split newline (servicesOutput sh))))).
Proof.
  intros Hsort (Hin & Henabled & Hprimary).
  apply filter_In. split; [|exact Hprimary].
  apply (Permutation_in _ (Permutation_sym (Hsort _))).
  apply filter_In. split; assumption.
Qed.

(** The darwin branch once the listing has been read. *)
Lemma configureProxy_darwin_run enable :
  fault sh ListAllNetworkServices = None ->
  let primaryServices :=
    filter isPrimary
      (sortServices sh
         (filter enabledService (split newline (servicesOutput sh)))) in
  primaryServices <> [] ->
  exists issued,
    configureProxy_darwin sh enable =
      (mkProxyResult (existsb (socksApplied sh enable) primaryServices) None,
       ([ListAllNetworkServices; AdminPrompt;
         if enable then ChromeDnsOff else ChromeDnsRestore]
        ++ issued
        ++ [SessionSetProxy
              (if enable then "socks5://127.0.0.1:10808" else "")])%list) /\
    forall c, In c issued ->
      exists service, In service primaryServices /\ serviceOf c = Some service.
Proof.
  intros Hlist primaryServices Hsome.
  unfold configureProxy_darwin. cbn [execSync app]. rewrite Hlist.
  fold primaryServices.
  destruct primaryServices as [|p ps] eqn:Hp; [congruence|].
  cbn [length Nat.eqb execAll execSync app].
  destruct (fault sh AdminPrompt);
    destruct (fault sh (if enable then ChromeDnsOff else ChromeDnsRestore));
    match goal with
    | |- context [fold_left _ _ (false, ?log)] =>
        destruct (configureServices_run enable (p :: ps) false log)
          as (issued & -> & Hissued)
    end;
    exists issued; (split; [reflexivity | exact Hissued]).
Qed.

End ProxyCommands.

(** X19. Without a Wi-Fi or Ethernet service nothing is configured.  On
    macOS, when no enabled line of the service listing contains Wi-Fi or
    Ethernet, [configureProxy] issues no command besides the listing, does
    not touch the proxy of the Electron session, and returns a failure whose
    message is that of the assignment to the constant [primaryServices]; the
    fallback to the first two services is never reached.  The engine's sort
    is only assumed to invent no element. *)
Theorem configureProxy_without_primary_service :
  forall (sh : SystemProxy.Shell) (enable : bool),
    SystemProxy.platform sh = "darwin" ->
    SystemProxy.fault sh SystemProxy.ListAllNetworkServices = None ->
    (forall l s, In s (SystemProxy.sortServices sh l) -> In s l) ->
    (forall service, ~ SystemProxy.eligible sh service) ->
    SystemProxy.configureProxy sh enable =
      (SystemProxy.mkProxyResult false
         (Some "Error configuring proxy: Assignment to constant variable."),
       [SystemProxy.ListAllNetworkServices]).
Proof.
  intros sh enable Hplatform Hlist Hsort Hnone.
  unfold SystemProxy.configureProxy. rewrite Hplatform. cbn [String.eqb].
  change (String.eqb "darwin" "darwin") with true. cbv iota.
  unfold SystemProxy.configureProxy_darwin.
  cbn [SystemProxy.execSync app]. rewrite Hlist.
  destruct (filter SystemProxy.isPrimary _) as [|p ps] eqn:Hp; [reflexivity|].
  exfalso. apply (Hnone p), (primary_eligible sh p Hsort).
  rewrite Hp. left. reflexivity.
Qed.

Lemma configureProxy_without_primary_service_witness :
  let sh :=
    SystemProxy.mkShell "darwin" (fun _ => None)
      "An asterisk (*) denotes that a network service is disabled.
USB 10/100/1000 LAN
Thunderbolt Bridge
" (fun l => l) in
  SystemProxy.configureProxy sh true =
    (SystemProxy.mkProxyResult false
       (Some "Error configuring proxy: Assignment to constant variable."),
     [SystemProxy.ListAllNetworkServices]).
Proof.
  intros sh.
  apply (configureProxy_without_primary_service sh true).
  - reflexivity.
  - reflexivity.
  - intros l s H. exact H.
  - intros service (Hin & Henabled & Hprimary).
    cbv in Hin.
    repeat (destruct Hin as [<- | Hin]; [discriminate|]). destruct Hin.
Defined.

(** X20. What the success flag of the macOS branch means.  [configureProxy]
    returns [success: true] exactly when the listing could be read and, for
    at least one enabled service whose name contains Wi-Fi or Ethernet, the
    SOCKS commands went through; failures of the administrator prompt, of
    the Chrome policy and of the HTTP and HTTPS commands change nothing.
    The engine's sort is only assumed to return a permutation. *)
Theorem configureProxy_success_iff_socks_applied :
  forall (sh : SystemProxy.Shell) (enable : bool),
    SystemProxy.platform sh = "darwin" ->
    (forall l, Permutation (SystemProxy.sortServices sh l) l) ->
    (SystemProxy.success (fst (SystemProxy.configureProxy sh enable)) = true <->
     SystemProxy.fault sh SystemProxy.ListAllNetworkServices = None /\
     exists service,
       SystemProxy.eligible sh service /\
       SystemProxy.socksApplied sh enable service = true).
Proof.
  intros sh enable Hplatform Hsort.
  assert (Hin : forall l s, In s (SystemProxy.sortServices sh l) -> In s l)
    by (intros l s; apply Permutation_in, Hsort).
  unfold SystemProxy.configureProxy. rewrite Hplatform.
  change (String.eqb "darwin" "darwin") with true. cbv iota.
  destruct (SystemProxy.fault sh SystemProxy.ListAllNetworkServices) as [e|] eqn:Hlist.
  { unfold SystemProxy.configureProxy_darwin. cbn [SystemProxy.execSync].
    rewrite Hlist. cbn. split; [discriminate | intros [H _]; discriminate H]. }
  destruct (filter SystemProxy.isPrimary
              (SystemProxy.sortServices sh
                 (filter SystemProxy.enabledService
                    (SystemProxy.split SystemProxy.newline
                       (SystemProxy.servicesOutput sh))))) as [|p ps] eqn:Hp.
  - unfold SystemProxy.configureProxy_darwin. cbn [SystemProxy.execSync].
    rewrite Hlist, Hp. cbn. split; [discriminate|].
    intros [_ (service & Hel & _)].
    apply (eligible_primary sh service Hsort) in Hel. rewrite Hp in Hel.
    destruct Hel.
  - destruct (configureProxy_darwin_run sh enable Hlist) as (issued & -> & _).
    { rewrite Hp. discriminate. }
    cbn [fst SystemProxy.success]. rewrite existsb_exists. split.
    + intros (service & Hs & Hok). split; [reflexivity|].
      exists service. split; [exact (primary_eligible sh service Hin Hs) | exact Hok].
    + intros [_ (service & Hel & Hok)]. exists service.
      split; [exact (eligible_primary sh service Hsort Hel) | exact Hok].
Qed.

Lemma configureProxy_success_iff_socks_applied_witness :
  let sh :=
    SystemProxy.mkShell "darwin"
      (fun c => match c with
                | SystemProxy.SetProxy SystemProxy.web _ _ => Some "denied"
                | _ => None
                end)
      "Wi-Fi" (fun l => l) in
  SystemProxy.success (fst (SystemProxy.configureProxy sh true)) = true <->
  SystemProxy.fault sh SystemProxy.ListAllNetworkServices = None /\
  exists service,
    SystemProxy.eligible sh service /\
    SystemProxy.socksApplied sh true service = true.
Proof.
  intros sh.
  apply (configureProxy_success_iff_socks_applied sh true).
  - reflexivity.
  - intros l. apply Permutation_refl.
Defined.


